(** * MedSage front end: handlers of the React components, embedded and verified

    The components of the MedSage client (sidebar, chat area, medical
    reports, medication tracker, appointment scheduler, women's health,
    lifestyle logger, AI doctor assistant, login form) are event handlers
    over [useState] variables, [localStorage], [fetch] and toast
    notifications.  Each handler is embedded as a computation in a small
    state-and-exception monad that records the observable effects
    (requests, toasts, console output, navigation) in a log. *)

From Stdlib Require Import ZArith QArith Qround Ascii String.
From stdpp Require Import gmap strings list.

Set Warnings "-register-all".

(** ** JavaScript strings

    Strings are sequences of ASCII characters.  [toLowerCase] lowers the
    letters A-Z and [trim] strips the ASCII white space.  (Outside ASCII,
    JavaScript lowers one character to an ASCII letter, the Kelvin sign to
    k, which no extension of the allow-list below contains.) *)

Definition toLowerCaseChar (c : ascii) : ascii :=
  let n := Ascii.N_of_ascii c in
  if ((65 <=? n) && (n <=? 90))%N then Ascii.ascii_of_N (n + 32) else c.

Fixpoint toLowerCase (s : string) : string :=
  match s with
  | EmptyString => EmptyString
  | String c r => String (toLowerCaseChar c) (toLowerCase r)
  end.

(** [s.split(sep)] for a one-character separator: never the empty array. *)
Fixpoint split (sep : ascii) (s : string) : list string :=
  match s with
  | EmptyString => [EmptyString]
  | String c r =>
      if Ascii.eqb c sep then EmptyString :: split sep r
      else match split sep r with
           | seg :: segs => String c seg :: segs
           | [] => [String c EmptyString]
           end
  end.

(** [a.pop()] as a value: the last element, [None] (undefined) on []. *)
Definition pop (a : list string) : option string := last a.

(** [a.includes(x)] *)
Definition includes (a : list string) (x : string) : bool :=
  existsb (String.eqb x) a.
Arguments includes : simpl never.

Definition isWhiteSpace (c : ascii) : bool :=
  let n := Ascii.N_of_ascii c in
  ((n =? 32) || ((9 <=? n) && (n <=? 13)))%N.

Fixpoint trimStart (s : string) : string :=
  match s with
  | EmptyString => EmptyString
  | String c r => if isWhiteSpace c then trimStart r else s
  end.

Definition trim (s : string) : string :=
  String.rev (trimStart (String.rev (trimStart s))).

Definition toUpperCaseChar (c : ascii) : ascii :=
  let n := Ascii.N_of_ascii c in
  if ((97 <=? n) && (n <=? 122))%N then Ascii.ascii_of_N (n - 32) else c.

Fixpoint toUpperCase (s : string) : string :=
  match s with
  | EmptyString => EmptyString
  | String c r => String (toUpperCaseChar c) (toUpperCase r)
  end.

(** [s.charAt(0)]: the empty string when [s] is empty. *)
Definition charAt0 (s : string) : string :=
  match s with
  | EmptyString => EmptyString
  | String c _ => String c EmptyString
  end.

(** [a.join('')] *)
Definition join (a : list string) : string := fold_right String.append "" a.

(** [s.slice(from, to)] for indices within [0, to]. *)
Definition slice (from to : nat) (s : string) : string :=
  String.substring from (Nat.min to (String.length s) - from) s.

(** [s.slice(1)] *)
Definition sliceFrom1 (s : string) : string :=
  match s with
  | EmptyString => EmptyString
  | String _ r => r
  end.

(** [s.replace(c, d)] with a one-character string pattern: the first
    occurrence only. *)
Fixpoint replaceFirst (c d : ascii) (s : string) : string :=
  match s with
  | EmptyString => EmptyString
  | String x r => if Ascii.eqb x c then String d r else String x (replaceFirst c d r)
  end.

(** [s.replace(/c/g, d)]: every occurrence. *)
Fixpoint replaceAll (c d : ascii) (s : string) : string :=
  match s with
  | EmptyString => EmptyString
  | String x r => String (if Ascii.eqb x c then d else x) (replaceAll c d r)
  end.

(** The number of occurrences of a character. *)
Fixpoint occurrences (c : ascii) (s : string) : nat :=
  match s with
  | EmptyString => 0
  | String x r => (if Ascii.eqb x c then 1 else 0) + occurrences c r
  end.

Definition isLowerCaseLetter (c : ascii) : bool :=
  let n := Ascii.N_of_ascii c in ((97 <=? n) && (n <=? 122))%N.

(** Truthiness of a string value: only the empty string is falsy. *)
Definition truthy (s : string) : bool :=
  match s with EmptyString => false | String _ _ => true end.

(** [s || fallback] where [s] may be undefined. *)
Definition orElse (s : option string) (fallback : string) : string :=
  match s with
  | Some v => if truthy v then v else fallback
  | None => fallback
  end.

(** ** The browser: local storage, files, requests, effects *)

(** [localStorage]: string keys to string values. *)
Abbreviation LocalStorage := (gmap string string).

Definition getItem (k : string) (store : LocalStorage) : option string :=
  store !! k.
Definition removeItem (k : string) (store : LocalStorage) : LocalStorage :=
  delete k store.
Definition setItem (k v : string) (store : LocalStorage) : LocalStorage :=
  <[k := v]> store.

(** A template literal renders [null] (an absent storage key) as the text
    null and [undefined] (an absent property) as the text undefined. *)
Definition interpolate (v : option string) : string :=
  match v with Some s => s | None => "null" end.
Definition interpolateProp (v : option string) : string :=
  match v with Some s => s | None => "undefined" end.

(** A form-state object: field names to the strings typed so far.  Every
    key a handler reads is present from the initial state on, so an absent
    key reads as the empty string, which is as falsy as [undefined]. *)
Abbreviation FormFields := (gmap string string).

Definition prop (k : string) (o : FormFields) : string := default "" (o !! k).
Arguments prop : simpl never.

(** [{...prev, k1: v1, ...}] *)
Definition assign (updates : list (string * string)) (prev : FormFields) : FormFields :=
  foldl (fun o kv => <[kv.1 := kv.2]> o) prev updates.

Definition object (fields : list (string * string)) : FormFields := assign fields ∅.

Module File.
Record t := mk { name : string; size : N }.
End File.

(** A record that came from, or goes to, the API: keys and values. *)
Definition Item := list (string * string).

Fixpoint field (k : string) (r : Item) : option string :=
  match r with
  | [] => None
  | (k', v) :: rest => if String.eqb k k' then Some v else field k rest
  end.

Inductive Method := GET | POST | DELETE.

(** Values inside a JSON body.  [parseInt] is kept symbolic: no property
    below depends on the number it yields. *)
Inductive JsonVal :=
| JStr (s : string)
| JBool (b : bool)
| JNum (z : Z)
| JParseInt (s : string)
| JParseIntOr0 (s : string).

Inductive Body :=
| NoBody
| JsonBody (fields : list (string * JsonVal))
| FormDataBody (file : File.t) (fields : list (string * string)).

Module Request.
Record t := mk {
  url : string;
  method : Method;
  headers : list (string * string);
  body : Body }.

Definition header (h : string) (r : t) : option string := field h (headers r).
End Request.

Definition API_BASE_URL : string := "http://localhost:5000/api".

Definition bearer (store : LocalStorage) : string * string :=
  ("Authorization", "Bearer " +:+ interpolate (getItem "token" store)).

Definition contentTypeJson : string * string :=
  ("Content-Type", "application/json").

(** [JSON.stringify(formData)], its properties in the order of the keys. *)
Definition stringify (fd : FormFields) : Body :=
  JsonBody ((fun kv => (kv.1, JStr kv.2)) <$> map_to_list fd).

(** A property that [JSON.stringify] leaves out when its value is
    [undefined]. *)
Definition optionalField (k : string) (v : option string) : list (string * JsonVal) :=
  match v with Some s => [(k, JStr s)] | None => [] end.

(** The parsed JSON reply of the API.  [success] and [error] are read by
    every handler; [item] and [items] stand for the record or the array the
    endpoint returns under its own key ([medication], [medications],
    [report], ...); the last four are the session of the auth endpoints. *)
Module ApiData.
Record t := mk {
  success : bool;
  error : option string;
  item : Item;
  items : list Item;
  conversation_id : string;
  response : string;
  token : string;
  user_id : string;
  email : string;
  full_name : string }.
End ApiData.

(** [await fetch(...)] followed by [await response.json()] either rejects
    (network failure, body that is not JSON) or yields the data. *)
Inductive FetchResult :=
| Rejects (message : string)
| Resolves (data : ApiData.t).

(** What a piece of code reads from its surroundings when it runs: local
    storage, the clock ([toISOString], [toLocaleTimeString]) and
    [Math.random()]. *)
Record Env := mkEnv {
  localStorage : LocalStorage;
  isoTime : string;
  localTime : string;
  random : Q }.

(** ** The handler monad

    A handler runs from a component state to a completion (a value or a
    thrown exception), a new state and the log of its effects. *)

Inductive Completion (A : Type) :=
| Normal (a : A)
| Throw (message : string).
Arguments Normal {A} a.
Arguments Throw {A} message.

Record Run (E S A : Type) := mkRun {
  outcome : Completion A;
  state : S;
  log : list E }.
Arguments mkRun {E S A} _ _ _.
Arguments outcome {E S A} _.
Arguments state {E S A} _.
Arguments log {E S A} _.

(** What a handler does to the world outside its component state.  An
    awaited [fetch] suspends the async function: the request leaves, and the
    rest of the function is the callback [resume], run in a later turn of
    the event loop on the reply and on the state the component has by then.
    [setTimeout] registers its callback in the same way. *)
Inductive Effect (S : Type) : Type :=
| Fetch (req : Request.t) (resume : Env -> FetchResult -> S -> Run (Effect S) S unit)
| SetTimeout (ms : N) (callback : Env -> S -> Run (Effect S) S unit)
| ToastError (msg : string)
| ToastSuccess (msg : string)
| ConsoleError (msg : string)
| Navigate (path : string) (replace : bool).
Arguments Fetch {S} req resume.
Arguments SetTimeout {S} ms callback.
Arguments ToastError {S} msg.
Arguments ToastSuccess {S} msg.
Arguments ConsoleError {S} msg.
Arguments Navigate {S} path replace.

Definition Handler (S A : Type) : Type := S -> Run (Effect S) S A.

Definition isToast {S} (e : Effect S) : bool :=
  match e with ToastError _ | ToastSuccess _ => true | _ => false end.

Definition isCallback {S} (e : Effect S) : bool :=
  match e with Fetch _ _ | SetTimeout _ _ => true | _ => false end.

(** The requests of a log, in order. *)
Definition requests {S} (l : list (Effect S)) : list Request.t :=
  omap (fun e => match e with Fetch r _ => Some r | _ => None end) l.

(** Run [k] after a run, keeping what was logged before. *)
Definition andThen {S A B} (r : Run (Effect S) S A) (k : A -> Handler S B)
  : Run (Effect S) S B :=
  match outcome r with
  | Normal a =>
      let r' := k a (state r) in
      mkRun (outcome r') (state r') (log r ++ log r')
  | Throw m => mkRun (Throw m) (state r) (log r)
  end.

#[global] Instance handler_ret {S} : MRet (Handler S) :=
  fun _ a s => mkRun (Normal a) s [].
#[global] Instance handler_bind {S} : MBind (Handler S) :=
  fun _ _ k m s => andThen (m s) k.

Definition emit {S} (e : Effect S) : Handler S unit :=
  fun s => mkRun (Normal tt) s [e].
Definition setState {S} (f : S -> S) : Handler S unit :=
  fun s => mkRun (Normal tt) (f s) [].
Definition getState {S} : Handler S S :=
  fun s => mkRun (Normal s) s [].
Definition throw {S A} (m : string) : Handler S A :=
  fun s => mkRun (Throw m) s [].
Definition skip {S} : Handler S unit := mret tt.

(** [try { body } catch (error) { handler }] *)
Definition tryCatch {S} (body : Handler S unit) (handler : string -> Handler S unit)
  : Handler S unit :=
  fun s =>
    let r := body s in
    match outcome r with
    | Normal _ => r
    | Throw m =>
        let r' := handler m (state r) in
        mkRun (outcome r') (state r') (log r ++ log r')
    end.

(** [try { body } finally { fin }]: [fin] always runs; the completion is the
    body's unless [fin] throws. *)
Definition tryFinally {S} (body : Handler S unit) (fin : Handler S unit)
  : Handler S unit :=
  fun s =>
    let r := body s in
    let r' := fin (state r) in
    mkRun (match outcome r' with Normal _ => outcome r | Throw m => Throw m end)
          (state r') (log r ++ log r').

(** [await fetch(req)] with the rest of the async function as [resume]. *)
Definition awaitFetch {S} (req : Request.t)
    (resume : Env -> FetchResult -> Handler S unit) : Handler S unit :=
  emit (Fetch req resume).

(** The value of the awaited expression once the reply is in: the data, or
    the rejection thrown at the [await]. *)
Definition settled {S} (result : FetchResult) : Handler S ApiData.t :=
  match result with
  | Rejects m => throw m
  | Resolves data => mret data
  end.

Definition setTimeout {S} (callback : Env -> Handler S unit) (ms : N) : Handler S unit :=
  emit (SetTimeout ms callback).

Definition toast_error {S} (m : string) : Handler S unit := emit (ToastError m).
Definition toast_success {S} (m : string) : Handler S unit := emit (ToastSuccess m).
Definition console_error {S} (m : string) : Handler S unit := emit (ConsoleError m).

(** [Math.random()] yields a number in [0, 1). *)
Definition validEnv (env : Env) : Prop := (0 <= random env /\ random env < 1)%Q.

(** ** The event loop

    A mounted component: its state, the callbacks still waiting for a reply
    or a timer, and everything it did so far. *)
Module Loop.
Record Sys (S : Type) := mk {
  comp : S;
  pending : list (Effect S);
  trace : list (Effect S) }.
Arguments mk {S} _ _ _.
Arguments comp {S} _.
Arguments pending {S} _.
Arguments trace {S} _.

(** The system after a run: the callbacks it registered wait with the
    others. *)
Definition absorb {S} (r : Run (Effect S) S unit) (waiting : list (Effect S))
    (done : list (Effect S)) : Sys S :=
  mk (state r) (waiting ++ List.filter isCallback (log r)) (done ++ log r).

Section Steps.
Context {S Event : Type}.
(** The handler the component binds to each user-interface event. *)
Variable handle : Event -> Env -> Handler S unit.

(** One turn of the event loop: a user-interface event, the reply to a
    request in flight, or a timer that fires. *)
Inductive step : Sys S -> Sys S -> Prop :=
| step_event sys ev env :
    validEnv env ->
    step sys (absorb (handle ev env (comp sys)) (pending sys) (trace sys))
| step_reply sys i req resume env result :
    validEnv env ->
    pending sys !! i = Some (Fetch req resume) ->
    step sys (absorb (resume env result (comp sys))
                     (delete i (pending sys)) (trace sys))
| step_timer sys i ms callback env :
    validEnv env ->
    pending sys !! i = Some (SetTimeout ms callback) ->
    step sys (absorb (callback env (comp sys))
                     (delete i (pending sys)) (trace sys)).

Inductive reachable (init : Sys S) : Sys S -> Prop :=
| reach_init : reachable init init
| reach_step sys sys' : reachable init sys -> step sys sys' -> reachable init sys'.
End Steps.
End Loop.

(** ** Sidebar *)

Module Sidebar.
(** [handleLogout]: the state it acts on is local storage itself. *)
Definition handleLogout : Handler LocalStorage unit :=
  setState (removeItem "token");;
  setState (removeItem "full_name");;
  setState (removeItem "email");;
  emit (Navigate "/" true).

(** The keys the login form persists. *)
Definition sessionKeys : list string := ["token"; "user_id"; "email"; "full_name"].

(** The state variables of the component. *)
Record Profile := mkProfile {
  userName : string;
  userInitials : string }.

Definition initialProfile : Profile := mkProfile "User" "U".

Definition setUserName v (st : Profile) := mkProfile v (userInitials st).
Definition setUserInitials v (st : Profile) := mkProfile (userName st) v.

(** [fullName.split(' ').map(part => part.charAt(0).toUpperCase()).join('').slice(0, 2)] *)
Definition initialsOf (fullName : string) : string :=
  slice 0 2 (join ((fun part => toUpperCase (charAt0 part)) <$> split " " fullName)).

(** The mount effect. *)
Definition loadProfile (env : Env) : Handler Profile unit :=
  match getItem "full_name" (localStorage env) with
  | Some fullName =>
      if truthy fullName then
        setState (setUserName fullName);;
        setState (setUserInitials (initialsOf fullName))
      else skip
  | None => skip
  end.

(** The ids of [menuItems]. *)
Definition menuItems : list string :=
  ["dashboard"; "records"; "care"; "fitness"; "womens"; "reminders"; "learning";
   "ai-assistant"].

(** [handleMenuClick]; [onSelectSection] is the property the parent passes,
    [None] when it passes none. *)
Definition handleMenuClick {S} (onSelectSection : option (string -> Handler S unit))
    (id : string) : Handler S unit :=
  match onSelectSection with
  | Some select => select id
  | None => skip
  end.
End Sidebar.

(** ** DashboardPage *)

Module DashboardPage.
(** What [renderSection] returns. *)
Inductive View :=
| Dashboard | MedicalReports | MedicationTracker | LifestyleLogger
| WomensHealth | AppointmentScheduler | Assistant
| Placeholder (heading : string).

Definition renderSection (activeSection : string) : View :=
  if String.eqb activeSection "dashboard" then Dashboard
  else if String.eqb activeSection "records" then MedicalReports
  else if String.eqb activeSection "care" then MedicationTracker
  else if String.eqb activeSection "fitness" then LifestyleLogger
  else if String.eqb activeSection "womens" then WomensHealth
  else if String.eqb activeSection "reminders" then AppointmentScheduler
  else if String.eqb activeSection "ai-assistant" then Assistant
  else Placeholder (toUpperCase (replaceAll "-" " " activeSection)).

(** The state is [activeSection]; the sidebar gets [setActiveSection]. *)
Definition initial : string := "dashboard".

Definition setActiveSection (id : string) : Handler string unit :=
  setState (fun _ => id).

Definition clickMenu (id : string) : Handler string unit :=
  Sidebar.handleMenuClick (Some setActiveSection) id.
End DashboardPage.

(** ** Dashboard *)

Module Dashboard.
(** The state is [userName]. *)
Definition initial : string := "User".

(** The mount effect. *)
Definition loadName (env : Env) : Handler string unit :=
  match getItem "full_name" (localStorage env) with
  | Some fullName => if truthy fullName then setState (fun _ => fullName) else skip
  | None => skip
  end.
End Dashboard.

(** ** ChatArea *)

Module ChatArea.
Inductive MessageType := user | ai.

(** A message; [text] is [None] when the expression it was built from is
    [undefined].  The avatar element of a message is left out. *)
Record Message := mkMessage {
  id : nat;
  type : MessageType;
  text : option string;
  time : string }.

Record State := mkState {
  messages : list Message;
  inputValue : string }.

Definition setMessages (f : list Message -> list Message) (st : State) : State :=
  mkState (f (messages st)) (inputValue st).
Definition setInputValue (v : string) (st : State) : State :=
  mkState (messages st) v.

Definition greeting : Message :=
  mkMessage 1 ai
    (Some "Hello! I'm your AI Health Assistant. I can help you with health questions, symptom analysis, and wellness advice. What would you like to know today?")
    "11:33".

Definition initial : State := mkState [greeting] "".

Definition aiResponses : list string :=
  [ "That's a great question! Let me help you with that.";
    "Based on your symptoms, I recommend consulting with a healthcare professional.";
    "Here are some wellness tips for your health concern...";
    "I understand your concern. Let me provide some personalized advice." ].

(** [a[i]] for an integer-valued number [i]: [undefined] out of range. *)
Definition index (a : list string) (i : Z) : option string :=
  if (i <? 0)%Z then None else a !! Z.to_nat i.

(** [aiResponses[Math.floor(Math.random() * aiResponses.length)]].  The
    product of a double below one with four is exact, so the rational
    computation is the floating-point one. *)
Definition randomResponse (env : Env) : option string :=
  index aiResponses (Qfloor (random env * inject_Z (Z.of_nat (length aiResponses)))).

(** The callback given to [setTimeout]. *)
Definition simulateReply (env : Env) : Handler State unit :=
  setState (setMessages (fun prev =>
    prev ++ [mkMessage (length prev + 1) ai (randomResponse env) (localTime env)])).

Definition handleSendMessage (env : Env) : Handler State unit :=
  st ← getState;
  if truthy (trim (inputValue st)) then
    let newMessage :=
      mkMessage (length (messages st) + 1) user (Some (inputValue st)) (localTime env) in
    setState (setMessages (fun _ => messages st ++ [newMessage]));;
    setState (setInputValue "");;
    setTimeout simulateReply 1000
  else skip.

Inductive Event :=
| Change (value : string)
| Click
| KeyPress (key : string).

Definition handle (ev : Event) (env : Env) : Handler State unit :=
  match ev with
  | Change value => setState (setInputValue value)
  | Click => handleSendMessage env
  | KeyPress key => if String.eqb key "Enter" then handleSendMessage env else skip
  end.

Definition mounted : Loop.Sys State := Loop.mk initial [] [].
End ChatArea.

(** ** MedicalReports *)

Module MedicalReports.
Inductive Tab := upload | view.

Record State := mkState {
  reports : list Item;
  formData : FormFields;
  selectedFile : option File.t;
  fileError : string;
  loading : bool;
  activeTab : Tab }.

Definition setReports v st :=
  mkState v (formData st) (selectedFile st) (fileError st) (loading st) (activeTab st).
Definition setFormData f st :=
  mkState (reports st) (f (formData st)) (selectedFile st) (fileError st) (loading st) (activeTab st).
Definition setSelectedFile v st :=
  mkState (reports st) (formData st) v (fileError st) (loading st) (activeTab st).
Definition setFileError v st :=
  mkState (reports st) (formData st) (selectedFile st) v (loading st) (activeTab st).
Definition setLoading v st :=
  mkState (reports st) (formData st) (selectedFile st) (fileError st) v (activeTab st).
Definition setActiveTab v st :=
  mkState (reports st) (formData st) (selectedFile st) (fileError st) (loading st) v.

Definition blank : FormFields :=
  object [("name", ""); ("report_type", ""); ("notes", "")].

Definition initial : State := mkState [] blank None "" false upload.

Definition listRequest (env : Env) : Request.t :=
  Request.mk "http://localhost:5000/api/report/list" GET
    [bearer (localStorage env)] NoBody.

Definition fetchReports_reply (_ : Env) (result : FetchResult) : Handler State unit :=
  tryCatch
    (data ← settled result;
     if ApiData.success data then setState (setReports (ApiData.items data))
     else toast_error "Failed to load reports")
    (fun error => toast_error "Error loading reports";; console_error error).

Definition fetchReports (env : Env) : Handler State unit :=
  awaitFetch (listRequest env) fetchReports_reply.

Definition handleChange (name value : string) : Handler State unit :=
  setState (setFormData (assign [(name, value)])).

Definition allowedExtensions : list string :=
  ["pdf"; "jpg"; "jpeg"; "png"; "bmp"; "tiff"; "docx"; "doc"].
Definition maxSize : N := 10 * 1024 * 1024.

(** [file.name.split('.').pop().toLowerCase()]; [None] stands for the
    TypeError of calling [toLowerCase] on [undefined]. *)
Definition fileExtension (file : File.t) : option string :=
  toLowerCase <$> pop (split "." (File.name file)).

(** [files] is [e.target.files]. *)
Definition handleFileSelect (files : list File.t) : Handler State unit :=
  match head files with
  | None =>
      setState (setSelectedFile None);;
      setState (setFileError "")
  | Some file =>
      match fileExtension file with
      | None => throw "TypeError"
      | Some ext =>
          if negb (includes allowedExtensions ext) then
            setState (setFileError "Invalid file type. Allowed: PDF, JPG, PNG, BMP, TIFF, DOCX");;
            setState (setSelectedFile None)
          else if (maxSize <? File.size file)%N then
            setState (setFileError "File size exceeds 10MB limit");;
            setState (setSelectedFile None)
          else
            setState (setSelectedFile (Some file));;
            setState (setFileError "")
      end
  end.

Definition uploadRequest (env : Env) (file : File.t) (fd : FormFields) : Request.t :=
  Request.mk "http://localhost:5000/api/report/upload" POST
    [bearer (localStorage env)]
    (FormDataBody file
       [("name", prop "name" fd); ("report_type", prop "report_type" fd);
        ("notes", prop "notes" fd)]).

(** The rest of [handleUploadReport] after its [await]; [reports] is the
    array of the render the handler was created in, not the one the
    component holds when the reply comes. *)
Definition handleUploadReport_reply (reports : list Item)
    (_ : Env) (result : FetchResult) : Handler State unit :=
  tryFinally
    (tryCatch
       (data ← settled result;
        if ApiData.success data then
          toast_success "Report uploaded successfully";;
          setState (setReports (reports ++ [ApiData.item data]));;
          setState (setFormData (fun _ => blank));;
          setState (setSelectedFile None);;
          setState (setActiveTab view)
        else toast_error (orElse (ApiData.error data) "Failed to upload report"))
       (fun error => toast_error "Error uploading report";; console_error error))
    (setState (setLoading false)).

Definition handleUploadReport (env : Env) : Handler State unit :=
  st ← getState;
  if negb (truthy (prop "name" (formData st)))
     || negb (truthy (prop "report_type" (formData st))) then
    toast_error "Please fill in report name and type"
  else
    match selectedFile st with
    | None => toast_error "Please select a file to upload"
    | Some file =>
        setState (setLoading true);;
        awaitFetch (uploadRequest env file (formData st))
                   (handleUploadReport_reply (reports st))
    end.

Definition handleFetchReports (env : Env) : Handler State unit := fetchReports env.

Definition deleteRequest (env : Env) (reportId : option string) : Request.t :=
  Request.mk ("http://localhost:5000/api/report/" +:+ interpolateProp reportId) DELETE
    [bearer (localStorage env)] NoBody.

(** [r.id !== reportId] *)
Definition differentId (reportId : option string) (r : Item) : bool :=
  negb (bool_decide (field "id" r = reportId)).

Definition handleDeleteReport_reply (reports : list Item) (reportId : option string)
    (_ : Env) (result : FetchResult) : Handler State unit :=
  tryCatch
    (data ← settled result;
     if ApiData.success data then
       toast_success "Report deleted successfully";;
       setState (setReports (List.filter (differentId reportId) reports))
     else toast_error "Failed to delete report")
    (fun error => toast_error "Error deleting report";; console_error error).

(** [confirmed] is the answer to [window.confirm]. *)
Definition handleDeleteReport (confirmed : bool) (reportId : option string)
    (env : Env) : Handler State unit :=
  st ← getState;
  if negb confirmed then skip
  else awaitFetch (deleteRequest env reportId)
                  (handleDeleteReport_reply (reports st) reportId).

(** The click handlers of the two tab buttons. *)
Definition clickTab (tab : Tab) (env : Env) : Handler State unit :=
  match tab with
  | upload => setState (setActiveTab upload)
  | view => setState (setActiveTab view);; handleFetchReports env
  end.

Inductive Event :=
| Mount
| Change (name value : string)
| FileSelect (files : list File.t)
| Submit
| ClickTab (tab : Tab)
| Delete (confirmed : bool) (reportId : option string).

Definition handle (ev : Event) (env : Env) : Handler State unit :=
  match ev with
  | Mount => fetchReports env
  | Change name value => handleChange name value
  | FileSelect files => handleFileSelect files
  | Submit => handleUploadReport env
  | ClickTab tab => clickTab tab env
  | Delete confirmed reportId => handleDeleteReport confirmed reportId env
  end.

Definition mounted : Loop.Sys State := Loop.mk initial [] [].

(** The two checks of [handleFileSelect] as one predicate on a file. *)
Definition passesValidation (file : File.t) : bool :=
  match fileExtension file with
  | Some ext => includes allowedExtensions ext && (File.size file <=? maxSize)%N
  | None => false
  end.

(** The file an upload request carries. *)
Definition uploadedFile (e : Effect State) : option File.t :=
  match e with
  | Fetch req _ =>
      match Request.body req with FormDataBody file _ => Some file | _ => None end
  | _ => None
  end.
End MedicalReports.

(** ** MedicationTracker *)

Module MedicationTracker.
Inductive Tab := add | view.

Record State := mkState {
  medications : list Item;
  formData : FormFields;
  loading : bool;
  activeTab : Tab }.

Definition setMedications v st := mkState v (formData st) (loading st) (activeTab st).
Definition setFormData f st :=
  mkState (medications st) (f (formData st)) (loading st) (activeTab st).
Definition setLoading v st := mkState (medications st) (formData st) v (activeTab st).
Definition setActiveTab v st := mkState (medications st) (formData st) (loading st) v.

Definition blank : FormFields :=
  object [("name", ""); ("dosage", ""); ("frequency", "");
          ("start_date", ""); ("end_date", ""); ("notes", "")].

Definition initial : State := mkState [] blank false add.

Definition activeRequest (env : Env) : Request.t :=
  Request.mk "http://localhost:5000/api/medication/active" GET
    [bearer (localStorage env)] NoBody.

Definition fetchMedications_reply (_ : Env) (result : FetchResult) : Handler State unit :=
  tryCatch
    (data ← settled result;
     if ApiData.success data then setState (setMedications (ApiData.items data))
     else skip)
    (fun error => console_error ("Error fetching medications: " +:+ error)).

Definition fetchMedications (env : Env) : Handler State unit :=
  awaitFetch (activeRequest env) fetchMedications_reply.

Definition handleChange (name value : string) : Handler State unit :=
  setState (setFormData (assign [(name, value)])).

Definition addRequest (env : Env) (fd : FormFields) : Request.t :=
  Request.mk "http://localhost:5000/api/medication/add" POST
    [contentTypeJson; bearer (localStorage env)] (stringify fd).

(** The rest of [handleAddMedication] after its [await]; [medications] is
    the array of the render that created the handler. *)
Definition handleAddMedication_reply (medications : list Item)
    (_ : Env) (result : FetchResult) : Handler State unit :=
  tryFinally
    (tryCatch
       (data ← settled result;
        if ApiData.success data then
          toast_success "Medication added successfully";;
          setState (setMedications (medications ++ [ApiData.item data]));;
          setState (setFormData (fun _ => blank));;
          setState (setActiveTab view)
        else toast_error (orElse (ApiData.error data) "Failed to add medication"))
       (fun error => toast_error "Error adding medication";; console_error error))
    (setState (setLoading false)).

Definition handleAddMedication (env : Env) : Handler State unit :=
  st ← getState;
  if negb (truthy (prop "name" (formData st)))
     || negb (truthy (prop "dosage" (formData st)))
     || negb (truthy (prop "frequency" (formData st))) then
    toast_error "Please fill in all required fields"
  else
    setState (setLoading true);;
    awaitFetch (addRequest env (formData st))
               (handleAddMedication_reply (medications st)).

Definition logDoseRequest (env : Env) (medicationId : option string) : Request.t :=
  Request.mk "http://localhost:5000/api/medication/log-dose" POST
    [contentTypeJson; bearer (localStorage env)]
    (JsonBody (optionalField "medication_id" medicationId
               ++ [("date", JStr (isoTime env)); ("taken", JBool true)])).

Definition handleLogDose_reply (_ : Env) (result : FetchResult) : Handler State unit :=
  tryCatch
    (data ← settled result;
     if ApiData.success data then toast_success "Dose logged successfully!"
     else toast_error (orElse (ApiData.error data) "Failed to log dose"))
    (fun error => toast_error "Error logging dose";; console_error error).

Definition handleLogDose (medicationId : option string) (env : Env)
  : Handler State unit :=
  awaitFetch (logDoseRequest env medicationId) handleLogDose_reply.

Definition clickTab (tab : Tab) (env : Env) : Handler State unit :=
  match tab with
  | add => setState (setActiveTab add)
  | view => setState (setActiveTab view);; fetchMedications env
  end.

Inductive Event :=
| Mount
| Change (name value : string)
| Submit
| LogDose (medicationId : option string)
| ClickTab (tab : Tab).

Definition handle (ev : Event) (env : Env) : Handler State unit :=
  match ev with
  | Mount => fetchMedications env
  | Change name value => handleChange name value
  | Submit => handleAddMedication env
  | LogDose medicationId => handleLogDose medicationId env
  | ClickTab tab => clickTab tab env
  end.

(** The fields the form marks [required]. *)
Definition required : list string := ["name"; "dosage"; "frequency"].

(** [med.frequency.replace('_', ' ').toUpperCase()] *)
Definition frequencyLabel (frequency : string) : string :=
  toUpperCase (replaceFirst "_" " " frequency).
End MedicationTracker.

(** ** AppointmentScheduler *)

Module AppointmentScheduler.
Inductive Tab := schedule | view.

Record State := mkState {
  appointments : list Item;
  formData : FormFields;
  loading : bool;
  activeTab : Tab }.

Definition setAppointments v st := mkState v (formData st) (loading st) (activeTab st).
Definition setFormData f st :=
  mkState (appointments st) (f (formData st)) (loading st) (activeTab st).
Definition setLoading v st := mkState (appointments st) (formData st) v (activeTab st).
Definition setActiveTab v st := mkState (appointments st) (formData st) (loading st) v.

Definition blank : FormFields :=
  object [("date", ""); ("time", ""); ("doctor", "");
          ("purpose", ""); ("location", ""); ("notes", "")].

Definition initial : State := mkState [] blank false schedule.

Definition upcomingRequest (env : Env) : Request.t :=
  Request.mk "http://localhost:5000/api/appointment/upcoming" GET
    [bearer (localStorage env)] NoBody.

Definition fetchAppointments_reply (_ : Env) (result : FetchResult) : Handler State unit :=
  tryCatch
    (data ← settled result;
     if ApiData.success data then setState (setAppointments (ApiData.items data))
     else skip)
    (fun error => console_error ("Error fetching appointments: " +:+ error)).

Definition fetchAppointments (env : Env) : Handler State unit :=
  awaitFetch (upcomingRequest env) fetchAppointments_reply.

Definition handleChange (name value : string) : Handler State unit :=
  setState (setFormData (assign [(name, value)])).

Definition scheduleRequest (env : Env) (fd : FormFields) : Request.t :=
  Request.mk "http://localhost:5000/api/appointment/schedule" POST
    [contentTypeJson; bearer (localStorage env)] (stringify fd).

(** The rest of [handleScheduleAppointment] after its [await].
    [appointments] is the array of the render that created the handler.
    (The list view sorts that array in place when it renders; this may
    reorder its entries before the reply comes and is not modelled.) *)
Definition handleScheduleAppointment_reply (appointments : list Item)
    (_ : Env) (result : FetchResult) : Handler State unit :=
  tryFinally
    (tryCatch
       (data ← settled result;
        if ApiData.success data then
          toast_success "Appointment scheduled successfully!";;
          setState (setAppointments (appointments ++ [ApiData.item data]));;
          setState (setFormData (fun _ => blank));;
          setState (setActiveTab view)
        else toast_error (orElse (ApiData.error data) "Failed to schedule appointment"))
       (fun error => toast_error "Error scheduling appointment";; console_error error))
    (setState (setLoading false)).

Definition handleScheduleAppointment (env : Env) : Handler State unit :=
  st ← getState;
  if negb (truthy (prop "date" (formData st)))
     || negb (truthy (prop "time" (formData st)))
     || negb (truthy (prop "doctor" (formData st)))
     || negb (truthy (prop "purpose" (formData st))) then
    toast_error "Please fill in all required fields"
  else
    setState (setLoading true);;
    awaitFetch (scheduleRequest env (formData st))
               (handleScheduleAppointment_reply (appointments st)).

Definition clickTab (tab : Tab) (env : Env) : Handler State unit :=
  match tab with
  | schedule => setState (setActiveTab schedule)
  | view => setState (setActiveTab view);; fetchAppointments env
  end.

Inductive Event :=
| Mount
| Change (name value : string)
| Submit
| ClickTab (tab : Tab).

Definition handle (ev : Event) (env : Env) : Handler State unit :=
  match ev with
  | Mount => fetchAppointments env
  | Change name value => handleChange name value
  | Submit => handleScheduleAppointment env
  | ClickTab tab => clickTab tab env
  end.

Definition required : list string := ["date"; "time"; "doctor"; "purpose"].

(** [apt.status.charAt(0).toUpperCase() + apt.status.slice(1)] *)
Definition statusLabel (status : string) : string :=
  toUpperCase (charAt0 status) +:+ sliceFrom1 status.

(** [getUpcomingCount].  [parse] stands for [new Date(apt.date)] as a number
    of milliseconds, [None] for an invalid date, with which every comparison
    is false; [today] is the local midnight. *)
Definition getUpcomingCount (parse : option string -> option Z) (today : Z)
    (appointments : list Item) : nat :=
  length (List.filter
            (fun apt => match parse (field "date" apt) with
                        | Some t => (today <=? t)%Z
                        | None => false
                        end)
            appointments).

Definition msPerDay : Z := 1000 * 60 * 60 * 24.

(** [Math.ceil(a / b)] for integers [a] and [b > 0].  The floating-point
    quotient has the ceiling of the exact one as long as it stays below
    2^26, here some 180,000 years. *)
Definition ceilDiv (a b : Z) : Z := (- ((- a) / b))%Z.

(** [Math.max(0, Math.ceil((new Date(apt.date) - new Date()) / (1000 * 60 * 60 * 24)))],
    the number before days away; [now] is the current time in milliseconds,
    and [None] is the NaN an invalid date gives. *)
Definition daysAway (parse : option string -> option Z) (now : Z) (apt : Item)
  : option Z :=
  match parse (field "date" apt) with
  | Some t => Some (Z.max 0 (ceilDiv (t - now) msPerDay))
  | None => None
  end.
End AppointmentScheduler.

(** ** WomensHealth *)

Module WomensHealth.
Inductive Tab := tab_period | tab_symptoms | tab_history.
Inductive ViewTab := view_periods | view_symptoms.

Record State := mkState {
  formData : FormFields;
  loading : bool;
  activeTab : Tab;
  periods : list Item;
  symptoms : list Item;
  viewTab : ViewTab }.

Definition setFormData f st :=
  mkState (f (formData st)) (loading st) (activeTab st) (periods st) (symptoms st) (viewTab st).
Definition setLoading v st :=
  mkState (formData st) v (activeTab st) (periods st) (symptoms st) (viewTab st).
Definition setActiveTab v st :=
  mkState (formData st) (loading st) v (periods st) (symptoms st) (viewTab st).
Definition setPeriods v st :=
  mkState (formData st) (loading st) (activeTab st) v (symptoms st) (viewTab st).
Definition setSymptoms v st :=
  mkState (formData st) (loading st) (activeTab st) (periods st) v (viewTab st).
Definition setViewTab v st :=
  mkState (formData st) (loading st) (activeTab st) (periods st) (symptoms st) v.

(** [symptom_severity] starts as the number 5; it is read through
    [parseInt] only, which takes 5 and the text 5 to the same number. *)
Definition blank : FormFields :=
  object [("start_date", ""); ("end_date", ""); ("flow", "medium"); ("notes", "");
          ("symptom_type", ""); ("symptom_severity", "5")].

Definition initial : State := mkState blank false tab_period [] [] view_periods.

Definition periodsRequest (env : Env) : Request.t :=
  Request.mk "http://localhost:5000/api/womens-health/periods" GET
    [bearer (localStorage env)] NoBody.

Definition symptomsRequest (env : Env) : Request.t :=
  Request.mk "http://localhost:5000/api/womens-health/symptoms" GET
    [bearer (localStorage env)] NoBody.

Definition fetchPeriodHistory_reply (_ : Env) (result : FetchResult) : Handler State unit :=
  tryCatch
    (data ← settled result;
     if ApiData.success data then setState (setPeriods (ApiData.items data))
     else skip)
    (fun error => console_error ("Error fetching periods: " +:+ error)).

Definition fetchPeriodHistory (env : Env) : Handler State unit :=
  awaitFetch (periodsRequest env) fetchPeriodHistory_reply.

Definition fetchSymptomHistory_reply (_ : Env) (result : FetchResult) : Handler State unit :=
  tryCatch
    (data ← settled result;
     if ApiData.success data then setState (setSymptoms (ApiData.items data))
     else skip)
    (fun error => console_error ("Error fetching symptoms: " +:+ error)).

Definition fetchSymptomHistory (env : Env) : Handler State unit :=
  awaitFetch (symptomsRequest env) fetchSymptomHistory_reply.

(** The mount effect. *)
Definition mount (env : Env) : Handler State unit :=
  fetchPeriodHistory env;; fetchSymptomHistory env.

Definition handleChange (name value : string) : Handler State unit :=
  setState (setFormData (assign [(name, value)])).

Definition periodRequest (env : Env) (fd : FormFields) : Request.t :=
  Request.mk "http://localhost:5000/api/womens-health/period" POST
    [contentTypeJson; bearer (localStorage env)]
    (JsonBody [("start_date", JStr (prop "start_date" fd));
               ("end_date", JStr (prop "end_date" fd));
               ("flow", JStr (prop "flow" fd));
               ("notes", JStr (prop "notes" fd))]).

Definition handleLogPeriod_reply (env : Env) (result : FetchResult) : Handler State unit :=
  tryFinally
    (tryCatch
       (data ← settled result;
        if ApiData.success data then
          toast_success "Period logged successfully";;
          setState (setFormData (assign
            [("start_date", ""); ("end_date", ""); ("flow", "medium"); ("notes", "")]));;
          fetchPeriodHistory env;;
          setState (setActiveTab tab_history)
        else toast_error (orElse (ApiData.error data) "Failed to log period"))
       (fun error => toast_error "Error logging period";; console_error error))
    (setState (setLoading false)).

Definition handleLogPeriod (env : Env) : Handler State unit :=
  st ← getState;
  if negb (truthy (prop "start_date" (formData st))) then
    toast_error "Please select start date"
  else
    setState (setLoading true);;
    awaitFetch (periodRequest env (formData st)) handleLogPeriod_reply.

Definition symptomRequest (env : Env) (fd : FormFields) : Request.t :=
  Request.mk "http://localhost:5000/api/womens-health/symptom" POST
    [contentTypeJson; bearer (localStorage env)]
    (JsonBody [("symptom_type", JStr (prop "symptom_type" fd));
               ("severity", JParseInt (prop "symptom_severity" fd));
               ("notes", JStr (prop "notes" fd));
               ("date", JStr (isoTime env))]).

Definition handleLogSymptom_reply (env : Env) (result : FetchResult) : Handler State unit :=
  tryFinally
    (tryCatch
       (data ← settled result;
        if ApiData.success data then
          toast_success "Symptom logged successfully";;
          setState (setFormData (assign
            [("symptom_type", ""); ("symptom_severity", "5"); ("notes", "")]));;
          fetchSymptomHistory env;;
          setState (setActiveTab tab_history)
        else toast_error (orElse (ApiData.error data) "Failed to log symptom"))
       (fun error => toast_error "Error logging symptom";; console_error error))
    (setState (setLoading false)).

Definition handleLogSymptom (env : Env) : Handler State unit :=
  st ← getState;
  if negb (truthy (prop "symptom_type" (formData st))) then
    toast_error "Please select symptom type"
  else
    setState (setLoading true);;
    awaitFetch (symptomRequest env (formData st)) handleLogSymptom_reply.

Definition clickTab (tab : Tab) : Handler State unit :=
  match tab with
  | tab_period => setState (setActiveTab tab_period)
  | tab_symptoms => setState (setActiveTab tab_symptoms)
  | tab_history => setState (setActiveTab tab_history);; setState (setViewTab view_periods)
  end.

Definition clickViewTab (tab : ViewTab) : Handler State unit :=
  setState (setViewTab tab).

Inductive Event :=
| Mount
| Change (name value : string)
| SubmitPeriod
| SubmitSymptom
| ClickTab (tab : Tab)
| ClickViewTab (tab : ViewTab).

Definition handle (ev : Event) (env : Env) : Handler State unit :=
  match ev with
  | Mount => mount env
  | Change name value => handleChange name value
  | SubmitPeriod => handleLogPeriod env
  | SubmitSymptom => handleLogSymptom env
  | ClickTab tab => clickTab tab
  | ClickViewTab tab => clickViewTab tab
  end.


(** [period.flow.charAt(0).toUpperCase() + period.flow.slice(1)] *)
Definition flowLabel (flow : string) : string :=
  toUpperCase (charAt0 flow) +:+ sliceFrom1 flow.

Definition requiredPeriod : list string := ["start_date"].
Definition requiredSymptom : list string := ["symptom_type"].
End WomensHealth.

(** ** LifestyleLogger *)

Module LifestyleLogger.
Inductive Tab := tab_log | tab_summary.

Record State := mkState {
  formData : FormFields;
  loading : bool;
  summary : option Item;
  activeTab : Tab }.

Definition setFormData f st :=
  mkState (f (formData st)) (loading st) (summary st) (activeTab st).
Definition setLoading v st := mkState (formData st) v (summary st) (activeTab st).
Definition setSummary v st := mkState (formData st) (loading st) v (activeTab st).
Definition setActiveTab v st := mkState (formData st) (loading st) (summary st) v.

Definition blank : FormFields :=
  object [("water_intake_ml", ""); ("steps", ""); ("sleep_hours", "");
          ("exercise_minutes", ""); ("meal_type", ""); ("description", "");
          ("calories", "")].

Definition initial : State := mkState blank false None tab_log.

Definition statsRequest (env : Env) : Request.t :=
  Request.mk "http://localhost:5000/api/lifestyle/stats" GET
    [bearer (localStorage env)] NoBody.

Definition fetchSummary_reply (_ : Env) (result : FetchResult) : Handler State unit :=
  tryCatch
    (data ← settled result;
     if ApiData.success data then setState (setSummary (Some (ApiData.item data)))
     else skip)
    (fun error => console_error ("Error fetching summary: " +:+ error)).

Definition fetchSummary (env : Env) : Handler State unit :=
  awaitFetch (statsRequest env) fetchSummary_reply.

Definition handleChange (name value : string) : Handler State unit :=
  setState (setFormData (assign [(name, value)])).

Definition activityRequest (env : Env) (fd : FormFields) : Request.t :=
  Request.mk "http://localhost:5000/api/lifestyle/activity" POST
    [contentTypeJson; bearer (localStorage env)]
    (JsonBody
       [("activity_type",
         JStr (if truthy (prop "exercise_minutes" fd) then "Exercise" else "Other"));
        ("duration", JParseIntOr0 (prop "exercise_minutes" fd));
        ("intensity", JStr "medium");
        ("calories", JNum 0);
        ("notes", JStr ("Steps: " +:+ prop "steps" fd +:+ ", Sleep: "
                        +:+ prop "sleep_hours" fd +:+ "hrs, Water: "
                        +:+ prop "water_intake_ml" fd +:+ "ml"))]).

Definition handleSubmitLifestyle_reply (env : Env) (result : FetchResult)
  : Handler State unit :=
  tryFinally
    (tryCatch
       (data ← settled result;
        if ApiData.success data then
          toast_success "Lifestyle data logged successfully";;
          setState (setFormData (assign
            [("water_intake_ml", ""); ("steps", ""); ("sleep_hours", "");
             ("exercise_minutes", "")]));;
          fetchSummary env
        else toast_error (orElse (ApiData.error data) "Failed to log lifestyle"))
       (fun error => toast_error "Error logging lifestyle data";; console_error error))
    (setState (setLoading false)).

Definition handleSubmitLifestyle (env : Env) : Handler State unit :=
  st ← getState;
  setState (setLoading true);;
  awaitFetch (activityRequest env (formData st)) handleSubmitLifestyle_reply.

Definition mealRequest (env : Env) (fd : FormFields) : Request.t :=
  Request.mk "http://localhost:5000/api/lifestyle/meal" POST
    [contentTypeJson; bearer (localStorage env)]
    (JsonBody [("meal_type", JStr (prop "meal_type" fd));
               ("description", JStr (prop "description" fd));
               ("calories", JParseIntOr0 (prop "calories" fd))]).

Definition handleSubmitMeal_reply (env : Env) (result : FetchResult)
  : Handler State unit :=
  tryFinally
    (tryCatch
       (data ← settled result;
        if ApiData.success data then
          toast_success "Meal logged successfully";;
          setState (setFormData (assign
            [("meal_type", ""); ("description", ""); ("calories", "")]));;
          fetchSummary env
        else toast_error (orElse (ApiData.error data) "Failed to log meal"))
       (fun error => toast_error "Error logging meal";; console_error error))
    (setState (setLoading false)).

Definition handleSubmitMeal (env : Env) : Handler State unit :=
  st ← getState;
  if negb (truthy (prop "meal_type" (formData st)))
     || negb (truthy (prop "description" (formData st))) then
    toast_error "Please fill in meal type and description"
  else
    setState (setLoading true);;
    awaitFetch (mealRequest env (formData st)) handleSubmitMeal_reply.

Definition clickTab (tab : Tab) : Handler State unit := setState (setActiveTab tab).

Inductive Event :=
| Mount
| Change (name value : string)
| SubmitLifestyle
| SubmitMeal
| ClickTab (tab : Tab).

Definition handle (ev : Event) (env : Env) : Handler State unit :=
  match ev with
  | Mount => fetchSummary env
  | Change name value => handleChange name value
  | SubmitLifestyle => handleSubmitLifestyle env
  | SubmitMeal => handleSubmitMeal env
  | ClickTab tab => clickTab tab
  end.

(** The activity form marks no field as required; the meal handler asks
    for these two. *)
Definition requiredActivity : list string := [].
Definition requiredMeal : list string := ["meal_type"; "description"].
End LifestyleLogger.

(** ** AIDoctorAssistant *)

Module AIDoctorAssistant.
Record State := mkState {
  conversations : list Item;
  question : string;
  loading : bool }.

Definition setConversations v st := mkState v (question st) (loading st).
Definition setQuestion v st := mkState (conversations st) v (loading st).
Definition setLoading v st := mkState (conversations st) (question st) v.

Definition initial : State := mkState [] "" false.

Definition historyRequest (env : Env) : Request.t :=
  Request.mk "http://localhost:5000/api/ai/history" GET
    [bearer (localStorage env)] NoBody.

Definition fetchConversationHistory_reply (_ : Env) (result : FetchResult)
  : Handler State unit :=
  tryCatch
    (data ← settled result;
     if ApiData.success data then setState (setConversations (ApiData.items data))
     else skip)
    (fun error => console_error ("Error loading conversation history: " +:+ error)).

Definition fetchConversationHistory (env : Env) : Handler State unit :=
  awaitFetch (historyRequest env) fetchConversationHistory_reply.

Definition consultRequest (env : Env) (question : string) : Request.t :=
  Request.mk "http://localhost:5000/api/ai/consult" POST
    [contentTypeJson; bearer (localStorage env)]
    (JsonBody [("question", JStr question)]).

Definition handleAskQuestion_reply (conversations : list Item) (question : string)
    (env : Env) (result : FetchResult) : Handler State unit :=
  tryFinally
    (tryCatch
       (data ← settled result;
        if ApiData.success data then
          setState (setConversations (conversations ++
            [[("id", ApiData.conversation_id data); ("query", question);
              ("response", ApiData.response data); ("timestamp", isoTime env)]]));;
          setState (setQuestion "");;
          toast_success "Response received"
        else toast_error (orElse (ApiData.error data) "Failed to get response"))
       (fun error => toast_error "Error asking question";; console_error error))
    (setState (setLoading false)).

Definition handleAskQuestion (env : Env) : Handler State unit :=
  st ← getState;
  if negb (truthy (trim (question st))) then toast_error "Please enter a question"
  else
    setState (setLoading true);;
    awaitFetch (consultRequest env (question st))
               (handleAskQuestion_reply (conversations st) (question st)).

Inductive Event :=
| Mount
| Change (value : string)
| Submit.

Definition handle (ev : Event) (env : Env) : Handler State unit :=
  match ev with
  | Mount => fetchConversationHistory env
  | Change value => setState (setQuestion value)
  | Submit => handleAskQuestion env
  end.
End AIDoctorAssistant.

(** ** LoginForm

    Two versions of the form are in the repository: the second
    (src/unnamed/part_006) adds the terms checkbox and its check to
    [handleSignUp]; [handleLogin] is the same in both. *)

Module LoginForm.
(** The state variables, and the local storage the handlers write. *)
Record State := mkState {
  email : string;
  password : string;
  confirmPassword : string;
  fullName : string;
  age : string;
  gender : string;
  agreedToTerms : bool;
  isSignUp : bool;
  loading : bool;
  storage : LocalStorage }.

Definition setLoading v st :=
  mkState (email st) (password st) (confirmPassword st) (fullName st) (age st)
          (gender st) (agreedToTerms st) (isSignUp st) v (storage st).
Definition setStorage f st :=
  mkState (email st) (password st) (confirmPassword st) (fullName st) (age st)
          (gender st) (agreedToTerms st) (isSignUp st) (loading st) (f (storage st)).

Definition initial (store : LocalStorage) : State :=
  mkState "" "" "" "" "" "male" false false false store.

(** The sign-in / sign-up toggle. *)
Definition toggle : Handler State unit :=
  setState (fun st =>
    mkState "" "" "" "" "" "male" (agreedToTerms st) (negb (isSignUp st))
            (loading st) (storage st)).

Definition signupRequest (st : State) : Request.t :=
  Request.mk (API_BASE_URL +:+ "/auth/signup") POST [contentTypeJson]
    (JsonBody [("email", JStr (email st)); ("password", JStr (password st));
               ("full_name", JStr (fullName st)); ("age", JParseInt (age st));
               ("gender", JStr (gender st))]).

Definition loginRequest (st : State) : Request.t :=
  Request.mk (API_BASE_URL +:+ "/auth/login") POST [contentTypeJson]
    (JsonBody [("email", JStr (email st)); ("password", JStr (password st))]).

Definition storeSession (data : ApiData.t) : Handler State unit :=
  setState (setStorage (setItem "token" (ApiData.token data)));;
  setState (setStorage (setItem "user_id" (ApiData.user_id data)));;
  setState (setStorage (setItem "email" (ApiData.email data)));;
  setState (setStorage (setItem "full_name" (ApiData.full_name data))).

Definition redirect : Handler State unit :=
  setTimeout (fun _ => emit (Navigate "/dashboard" false)) 1500.

Definition handleSignUp_reply (_ : Env) (result : FetchResult) : Handler State unit :=
  tryFinally
    (tryCatch
       (data ← settled result;
        if ApiData.success data then
          toast_success "Account created successfully! Redirecting...";;
          storeSession data;;
          redirect
        else toast_error (orElse (ApiData.error data) "Signup failed"))
       (fun err => toast_error ("Error: " +:+ err)))
    (setState (setLoading false)).

Definition missing (st : State) : bool :=
  negb (truthy (email st)) || negb (truthy (password st))
  || negb (truthy (confirmPassword st)) || negb (truthy (fullName st))
  || negb (truthy (age st)) || negb (truthy (gender st)).

(** src/Components/LoginForm.jsx *)
Definition handleSignUp (env : Env) : Handler State unit :=
  st ← getState;
  setState (setLoading true);;
  if missing st then
    toast_error "Please fill in all fields";; setState (setLoading false)
  else if negb (String.eqb (password st) (confirmPassword st)) then
    toast_error "Passwords do not match";; setState (setLoading false)
  else if String.length (password st) <? 8 then
    toast_error "Password must be at least 8 characters";; setState (setLoading false)
  else awaitFetch (signupRequest st) handleSignUp_reply.

(** src/unnamed/part_006 *)
Definition handleSignUp_terms (env : Env) : Handler State unit :=
  st ← getState;
  setState (setLoading true);;
  if missing st then
    toast_error "Please fill in all fields";; setState (setLoading false)
  else if negb (String.eqb (password st) (confirmPassword st)) then
    toast_error "Passwords do not match";; setState (setLoading false)
  else if String.length (password st) <? 8 then
    toast_error "Password must be at least 8 characters";; setState (setLoading false)
  else if negb (agreedToTerms st) then
    toast_error "You must agree to the Terms of Service and Privacy Policy";;
    setState (setLoading false)
  else awaitFetch (signupRequest st) handleSignUp_reply.

Definition handleLogin_reply (_ : Env) (result : FetchResult) : Handler State unit :=
  tryFinally
    (tryCatch
       (data ← settled result;
        if ApiData.success data then
          toast_success "Login successful! Redirecting...";;
          storeSession data;;
          redirect
        else toast_error (orElse (ApiData.error data) "Login failed"))
       (fun err => toast_error ("Error: " +:+ err)))
    (setState (setLoading false)).

Definition handleLogin (env : Env) : Handler State unit :=
  st ← getState;
  setState (setLoading true);;
  if negb (truthy (email st)) || negb (truthy (password st)) then
    toast_error "Please enter email and password";; setState (setLoading false)
  else awaitFetch (loginRequest st) handleLogin_reply.

Definition handleSubmit (env : Env) : Handler State unit :=
  st ← getState;
  if isSignUp st then handleSignUp env else handleLogin env.

(** The second version of the form: its switch also withdraws the
    agreement to the terms, and its submit handler runs its own
    [handleSignUp]. *)
Definition toggle_terms : Handler State unit :=
  setState (fun st =>
    mkState "" "" "" "" "" "male" false (negb (isSignUp st)) (loading st) (storage st)).

Definition handleSubmit_terms (env : Env) : Handler State unit :=
  st ← getState;
  if isSignUp st then handleSignUp_terms env else handleLogin env.

(** The values of the fields the sign-up form marks [required]. *)
Definition requiredSignUp (st : State) : list string :=
  [email st; password st; confirmPassword st; fullName st; age st; gender st].
Definition requiredLogin (st : State) : list string := [email st; password st].
End LoginForm.

(** ** The forms and the network operations of the client *)

Inductive Form :=
| AddMedication | ScheduleAppointment | UploadReport
| LogPeriod | LogSymptom | LogActivity | LogMeal
| AskQuestion | SignUp | SignUpTerms | Login.

(** The state of the component a form lives in. *)
Definition formState (f : Form) : Type :=
  match f with
  | AddMedication => MedicationTracker.State
  | ScheduleAppointment => AppointmentScheduler.State
  | UploadReport => MedicalReports.State
  | LogPeriod | LogSymptom => WomensHealth.State
  | LogActivity | LogMeal => LifestyleLogger.State
  | AskQuestion => AIDoctorAssistant.State
  | SignUp | SignUpTerms | Login => LoginForm.State
  end.

(** The submit handler of a form. *)
Definition submit (f : Form) : Env -> Handler (formState f) unit :=
  match f with
  | AddMedication => MedicationTracker.handleAddMedication
  | ScheduleAppointment => AppointmentScheduler.handleScheduleAppointment
  | UploadReport => MedicalReports.handleUploadReport
  | LogPeriod => WomensHealth.handleLogPeriod
  | LogSymptom => WomensHealth.handleLogSymptom
  | LogActivity => LifestyleLogger.handleSubmitLifestyle
  | LogMeal => LifestyleLogger.handleSubmitMeal
  | AskQuestion => AIDoctorAssistant.handleAskQuestion
  | SignUp => LoginForm.handleSignUp
  | SignUpTerms => LoginForm.handleSignUp_terms
  | Login => LoginForm.handleLogin
  end.

(** The values of the required text fields of a form, read from the form
    state. *)
Definition requiredValues (f : Form) : formState f -> list string :=
  match f with
  | AddMedication => fun st =>
      (fun k => prop k (MedicationTracker.formData st)) <$> MedicationTracker.required
  | ScheduleAppointment => fun st =>
      (fun k => prop k (AppointmentScheduler.formData st)) <$> AppointmentScheduler.required
  | UploadReport => fun st =>
      (fun k => prop k (MedicalReports.formData st)) <$> ["name"; "report_type"]
  | LogPeriod => fun st =>
      (fun k => prop k (WomensHealth.formData st)) <$> WomensHealth.requiredPeriod
  | LogSymptom => fun st =>
      (fun k => prop k (WomensHealth.formData st)) <$> WomensHealth.requiredSymptom
  | LogActivity => fun st =>
      (fun k => prop k (LifestyleLogger.formData st)) <$> LifestyleLogger.requiredActivity
  | LogMeal => fun st =>
      (fun k => prop k (LifestyleLogger.formData st)) <$> LifestyleLogger.requiredMeal
  | AskQuestion => fun st => [AIDoctorAssistant.question st]
  | SignUp | SignUpTerms => LoginForm.requiredSignUp
  | Login => LoginForm.requiredLogin
  end.

(** Every required field holds some text. *)
Definition allPresent (f : Form) (st : formState f) : bool :=
  forallb truthy (requiredValues f st).

(** What a submit handler checks besides presence. *)
Definition furtherChecks (f : Form) : formState f -> bool :=
  match f with
  | UploadReport => fun st => bool_decide (is_Some (MedicalReports.selectedFile st))
  | AskQuestion => fun st => truthy (trim (AIDoctorAssistant.question st))
  | SignUp => fun st =>
      String.eqb (LoginForm.password st) (LoginForm.confirmPassword st)
      && (8 <=? String.length (LoginForm.password st))
  | SignUpTerms => fun st =>
      String.eqb (LoginForm.password st) (LoginForm.confirmPassword st)
      && (8 <=? String.length (LoginForm.password st))
      && LoginForm.agreedToTerms st
  | _ => fun _ => true
  end.

Inductive Operation :=
| Submission (f : Form)
| LoadMedications | LoadAppointments | LoadReports
| LoadPeriods | LoadSymptoms | LoadSummary | LoadConversations
| LogDose (medicationId : option string)
| DeleteReport (reportId : option string).

Definition opState (o : Operation) : Type :=
  match o with
  | Submission f => formState f
  | LoadMedications | LogDose _ => MedicationTracker.State
  | LoadAppointments => AppointmentScheduler.State
  | LoadReports | DeleteReport _ => MedicalReports.State
  | LoadPeriods | LoadSymptoms => WomensHealth.State
  | LoadSummary => LifestyleLogger.State
  | LoadConversations => AIDoctorAssistant.State
  end.

(** The code an operation runs on the reply to its request; [closure] is
    the state of the render in which the operation was started. *)
Definition onReply (o : Operation) (closure : opState o)
  : Env -> FetchResult -> Handler (opState o) unit :=
  match o return opState o -> Env -> FetchResult -> Handler (opState o) unit with
  | Submission AddMedication => fun st =>
      MedicationTracker.handleAddMedication_reply (MedicationTracker.medications st)
  | Submission ScheduleAppointment => fun st =>
      AppointmentScheduler.handleScheduleAppointment_reply
        (AppointmentScheduler.appointments st)
  | Submission UploadReport => fun st =>
      MedicalReports.handleUploadReport_reply (MedicalReports.reports st)
  | Submission LogPeriod => fun _ => WomensHealth.handleLogPeriod_reply
  | Submission LogSymptom => fun _ => WomensHealth.handleLogSymptom_reply
  | Submission LogActivity => fun _ => LifestyleLogger.handleSubmitLifestyle_reply
  | Submission LogMeal => fun _ => LifestyleLogger.handleSubmitMeal_reply
  | Submission AskQuestion => fun st =>
      AIDoctorAssistant.handleAskQuestion_reply
        (AIDoctorAssistant.conversations st) (AIDoctorAssistant.question st)
  | Submission SignUp | Submission SignUpTerms => fun _ => LoginForm.handleSignUp_reply
  | Submission Login => fun _ => LoginForm.handleLogin_reply
  | LoadMedications => fun _ => MedicationTracker.fetchMedications_reply
  | LoadAppointments => fun _ => AppointmentScheduler.fetchAppointments_reply
  | LoadReports => fun _ => MedicalReports.fetchReports_reply
  | LoadPeriods => fun _ => WomensHealth.fetchPeriodHistory_reply
  | LoadSymptoms => fun _ => WomensHealth.fetchSymptomHistory_reply
  | LoadSummary => fun _ => LifestyleLogger.fetchSummary_reply
  | LoadConversations => fun _ => AIDoctorAssistant.fetchConversationHistory_reply
  | LogDose _ => fun _ => MedicationTracker.handleLogDose_reply
  | DeleteReport reportId => fun st =>
      MedicalReports.handleDeleteReport_reply (MedicalReports.reports st) reportId
  end closure.

(** The code that starts an operation. *)
Definition start (o : Operation) : Env -> Handler (opState o) unit :=
  match o with
  | Submission f => submit f
  | LoadMedications => MedicationTracker.fetchMedications
  | LoadAppointments => AppointmentScheduler.fetchAppointments
  | LoadReports => MedicalReports.fetchReports
  | LoadPeriods => WomensHealth.fetchPeriodHistory
  | LoadSymptoms => WomensHealth.fetchSymptomHistory
  | LoadSummary => LifestyleLogger.fetchSummary
  | LoadConversations => AIDoctorAssistant.fetchConversationHistory
  | LogDose medicationId => MedicationTracker.handleLogDose medicationId
  | DeleteReport reportId => MedicalReports.handleDeleteReport true reportId
  end.

(** The flag that disables the submit button of the form. *)
Definition busy (f : Form) : formState f -> bool :=
  match f with
  | AddMedication => MedicationTracker.loading
  | ScheduleAppointment => AppointmentScheduler.loading
  | UploadReport => MedicalReports.loading
  | LogPeriod | LogSymptom => WomensHealth.loading
  | LogActivity | LogMeal => LifestyleLogger.loading
  | AskQuestion => AIDoctorAssistant.loading
  | SignUp | SignUpTerms | Login => LoginForm.loading
  end.

(** A reply that reports a failure: a rejected promise, or data without a
    truthy [success]. *)
Definition isFailure (result : FetchResult) : bool :=
  match result with
  | Rejects _ => true
  | Resolves data => negb (ApiData.success data)
  end.

(** ** Notions of the specification *)

(** The text after the last dot of a name, as the specification words the
    extension: a name without a dot has none. *)
Fixpoint textAfterLastDot (s : string) : option string :=
  match s with
  | EmptyString => None
  | String c r =>
      match textAfterLastDot r with
      | Some t => Some t
      | None => if Ascii.eqb c "." then Some r else None
      end
  end.

(** The acceptance condition of the file-selection handler in the words of
    the specification. *)
Definition acceptableBySpec (file : File.t) : Prop :=
  exists ext,
    textAfterLastDot (File.name file) = Some ext
    /\ In (toLowerCase ext) MedicalReports.allowedExtensions
    /\ (File.size file <= MedicalReports.maxSize)%N.

(** The part of a name the handler compares with the allow-list: the text
    after the last dot, and the whole name when it has no dot. *)
Definition lastSegment (name : string) : string :=
  default name (textAfterLastDot name).

(** The list a form feeds, and whether the component shows it. *)
Definition listState (f : Form) : formState f -> list Item :=
  match f with
  | AddMedication => MedicationTracker.medications
  | ScheduleAppointment => AppointmentScheduler.appointments
  | UploadReport => MedicalReports.reports
  | LogPeriod => WomensHealth.periods
  | LogSymptom => WomensHealth.symptoms
  | AskQuestion => AIDoctorAssistant.conversations
  | _ => fun _ => []
  end.

Definition listShown (f : Form) : formState f -> Prop :=
  match f with
  | AddMedication => fun st => MedicationTracker.activeTab st = MedicationTracker.view
  | ScheduleAppointment => fun st =>
      AppointmentScheduler.activeTab st = AppointmentScheduler.view
  | UploadReport => fun st => MedicalReports.activeTab st = MedicalReports.view
  | LogPeriod | LogSymptom => fun st =>
      WomensHealth.activeTab st = WomensHealth.tab_history
  | AskQuestion => fun _ => True
  | _ => fun _ => False
  end.

(** The request that reloads the list of a form that refetches. *)
Definition reloadRequest (f : Form) (env : Env) : Request.t :=
  match f with
  | LogSymptom => WomensHealth.symptomsRequest env
  | _ => WomensHealth.periodsRequest env
  end.

(** The forms whose reply handler appends the returned item to the list;
    the other listed forms reload the list from the server. *)
Definition appends (f : Form) : bool :=
  match f with
  | AddMedication | ScheduleAppointment | UploadReport => true
  | _ => false
  end.

(** The code that handles the reply to the reload. *)
Definition reloadReply (f : Form) : Env -> FetchResult -> Handler (formState f) unit :=
  match f with
  | LogPeriod => WomensHealth.fetchPeriodHistory_reply
  | LogSymptom => WomensHealth.fetchSymptomHistory_reply
  | _ => fun _ _ => skip
  end.

(** The operations whose failures reach the console only. *)
Definition silent (o : Operation) : bool :=
  match o with
  | LoadMedications | LoadAppointments | LoadPeriods | LoadSymptoms
  | LoadSummary | LoadConversations => true
  | _ => false
  end.

(** The four ways in which the client surfaces a failure:
    - [Quiet prefix]: no notification; an exception goes to the console
      after [prefix], a non-success reply is dropped;
    - [Fixed refused thrown]: a notification with a fixed text, [refused]
      for a non-success reply and [thrown] for an exception, which also
      goes to the console;
    - [Server fallback thrown]: as [Fixed], but a non-success reply shows
      the error text of the server when it has one, and [fallback] when it
      has none;
    - [ServerOrException fallback]: a non-success reply as with [Server];
      an exception shows its own message after Error: and does not go to
      the console. *)
Inductive Surfacing :=
| Quiet (prefix : string)
| Fixed (refused thrown : string)
| Server (fallback thrown : string)
| ServerOrException (fallback : string).

(** What a failure surfaced in one of these ways does outside the
    component, in order. *)
Definition failureLog {S} (how : Surfacing) (result : FetchResult) : list (Effect S) :=
  match how, result with
  | Quiet _, Resolves _ => []
  | Quiet prefix, Rejects m => [ConsoleError (prefix +:+ m)]
  | Fixed refused _, Resolves _ => [ToastError refused]
  | Fixed _ thrown, Rejects m => [ToastError thrown; ConsoleError m]
  | Server fallback _, Resolves data => [ToastError (orElse (ApiData.error data) fallback)]
  | Server _ thrown, Rejects m => [ToastError thrown; ConsoleError m]
  | ServerOrException fallback, Resolves data =>
      [ToastError (orElse (ApiData.error data) fallback)]
  | ServerOrException _, Rejects m => [ToastError ("Error: " +:+ m)]
  end.

(** The way each operation surfaces a failure, with its texts. *)
Definition surfacing (o : Operation) : Surfacing :=
  match o with
  | Submission AddMedication => Server "Failed to add medication" "Error adding medication"
  | Submission ScheduleAppointment =>
      Server "Failed to schedule appointment" "Error scheduling appointment"
  | Submission UploadReport => Server "Failed to upload report" "Error uploading report"
  | Submission LogPeriod => Server "Failed to log period" "Error logging period"
  | Submission LogSymptom => Server "Failed to log symptom" "Error logging symptom"
  | Submission LogActivity => Server "Failed to log lifestyle" "Error logging lifestyle data"
  | Submission LogMeal => Server "Failed to log meal" "Error logging meal"
  | Submission AskQuestion => Server "Failed to get response" "Error asking question"
  | Submission SignUp | Submission SignUpTerms => ServerOrException "Signup failed"
  | Submission Login => ServerOrException "Login failed"
  | LogDose _ => Server "Failed to log dose" "Error logging dose"
  | LoadReports => Fixed "Failed to load reports" "Error loading reports"
  | DeleteReport _ => Fixed "Failed to delete report" "Error deleting report"
  | LoadMedications => Quiet "Error fetching medications: "
  | LoadAppointments => Quiet "Error fetching appointments: "
  | LoadPeriods => Quiet "Error fetching periods: "
  | LoadSymptoms => Quiet "Error fetching symptoms: "
  | LoadSummary => Quiet "Error fetching summary: "
  | LoadConversations => Quiet "Error loading conversation history: "
  end.

Definition isQuiet (how : Surfacing) : bool :=
  match how with Quiet _ => true | _ => false end.

(** The header the authenticated endpoints expect, built from the token in
    the local storage the issuing code reads. *)
Definition carriesToken (env : Env) (req : Request.t) : Prop :=
  Request.header "Authorization" req
  = Some ("Bearer " +:+ interpolate (getItem "token" (localStorage env))).

(** Every request a piece of code issues carries the token, and so do the
    requests of the callbacks it registers, [depth] callbacks deep. *)
Fixpoint authorized {S} (depth : nat) (h : Env -> Handler S unit) : Prop :=
  forall env s,
    Forall (fun e =>
      match e with
      | Fetch req resume =>
          carriesToken env req
          /\ match depth with
             | 0 => True
             | Datatypes.S d => forall result, authorized d (fun env' => resume env' result)
             end
      | SetTimeout _ callback =>
          match depth with
          | 0 => True
          | Datatypes.S d => authorized d callback
          end
      | _ => True
      end) (log (h env s)).

(** ** Sample inputs *)

Definition sampleEnv : Env :=
  mkEnv (setItem "token" "tok" ∅) "2024-05-01T09:30:00.000Z" "09:30 AM" (5 # 8).

(** The storage of a signed-in user, as the login form leaves it. *)
Definition signedIn : LocalStorage :=
  setItem "full_name" "Asha Rao"
    (setItem "email" "asha@example.org"
       (setItem "user_id" "42" (setItem "token" "tok" ∅))).

Definition sampleMedication : MedicationTracker.State :=
  MedicationTracker.mkState []
    (assign [("name", "Aspirin"); ("dosage", "500mg"); ("frequency", "once_daily")]
            MedicationTracker.blank)
    false MedicationTracker.add.

Definition sampleData : ApiData.t :=
  ApiData.mk true None [("id", "7"); ("name", "Aspirin")] [] "" "" "" "" "" "".

(** Every field filled, the password confirmed and seven characters long. *)
Definition sampleSignUp : LoginForm.State :=
  LoginForm.mkState "asha@example.org" "secret1" "secret1" "Asha Rao" "30" "female"
                    true true false ∅.

(** A message of the chat that the component may show as the assistant's:
    the greeting, or one of the canned replies. *)
Definition scripted (m : ChatArea.Message) : Prop :=
  ChatArea.type m = ChatArea.ai ->
  m = ChatArea.greeting
  \/ exists s, ChatArea.text m = Some s /\ In s ChatArea.aiResponses.

(** The selected file, when there is one, passed the checks. *)
Definition selectionValid (st : MedicalReports.State) : Prop :=
  match MedicalReports.selectedFile st with
  | Some file => MedicalReports.passesValidation file = true
  | None => True
  end.

(** An effect that is not the upload of a file that fails the checks. *)
Definition uploadValid (e : Effect MedicalReports.State) : Prop :=
  match MedicalReports.uploadedFile e with
  | Some file => MedicalReports.passesValidation file = true
  | None => True
  end.

(** A run is safe for a property [P] of the state, [Q] of the effects and
    [K] of the callbacks when it ends in a state with [P], does only what
    [Q] allows and registers only callbacks with [K]. *)
Definition safe {S} (P : S -> Prop) (Q K : Effect S -> Prop)
    (r : Run (Effect S) S unit) : Prop :=
  P (state r) /\ Forall Q (log r) /\ Forall K (List.filter isCallback (log r)).

Definition holds {S} (P : S -> Prop) (Q K : Effect S -> Prop) (sys : Loop.Sys S) : Prop :=
  P (Loop.comp sys) /\ Forall Q (Loop.trace sys) /\ Forall K (Loop.pending sys).

(** The callbacks the chat area registers. *)
Definition chatCallback (e : Effect ChatArea.State) : Prop :=
  e = SetTimeout 1000 ChatArea.simulateReply.

Definition allScripted (st : ChatArea.State) : Prop :=
  Forall scripted (ChatArea.messages st).

(** The callbacks the medical reports register. *)
Definition reportsCallback (e : Effect MedicalReports.State) : Prop :=
  match e with
  | Fetch _ resume =>
      resume = MedicalReports.fetchReports_reply
      \/ (exists reports, resume = MedicalReports.handleUploadReport_reply reports)
      \/ (exists reports reportId,
             resume = MedicalReports.handleDeleteReport_reply reports reportId)
  | _ => False
  end.

(** A chat session: a question typed and sent, and the timer fired. *)
Definition chatTyped : Loop.Sys ChatArea.State :=
  Loop.absorb
    (ChatArea.handle (ChatArea.Change "I have a headache") sampleEnv
                     (Loop.comp ChatArea.mounted))
    (Loop.pending ChatArea.mounted) (Loop.trace ChatArea.mounted).

Definition chatSent : Loop.Sys ChatArea.State :=
  Loop.absorb (ChatArea.handle ChatArea.Click sampleEnv (Loop.comp chatTyped))
              (Loop.pending chatTyped) (Loop.trace chatTyped).

Definition chatAnswered : Loop.Sys ChatArea.State :=
  Loop.absorb (ChatArea.simulateReply sampleEnv (Loop.comp chatSent))
              (delete 0 (Loop.pending chatSent)) (Loop.trace chatSent).

(** An upload: the form filled, a file chosen, the form submitted. *)
Definition sampleFile : File.t := File.mk "scan.PDF" 204800.

Definition uploadSubmitted : Loop.Sys MedicalReports.State :=
  let step ev sys :=
    Loop.absorb (MedicalReports.handle ev sampleEnv (Loop.comp sys))
                (Loop.pending sys) (Loop.trace sys) in
  step MedicalReports.Submit
    (step (MedicalReports.FileSelect [sampleFile])
       (step (MedicalReports.Change "report_type" "blood_test")
          (step (MedicalReports.Change "name" "Blood test")
             MedicalReports.mounted))).

(** ** Notions of the further properties *)

(** Every character of the string satisfies the test. *)
Fixpoint forallChars (p : ascii -> bool) (s : string) : bool :=
  match s with
  | EmptyString => true
  | String c r => p c && forallChars p r
  end.

Definition isLetter (c : ascii) : bool :=
  let n := Ascii.N_of_ascii c in
  (((65 <=? n) && (n <=? 90)) || ((97 <=? n) && (n <=? 122)))%N.

Definition noLowerCase (s : string) : bool :=
  forallChars (fun c => negb (isLowerCaseLetter c)) s.

(** A form-state object after one field was set: the field reads the new
    value and every other field reads as before. *)
Definition oneFieldSet (name value : string) (before after : FormFields) : Prop :=
  prop name after = value
  /\ forall k, k <> name -> prop k after = prop k before.

(** The properties of a JSON body, empty for another body. *)
Definition jsonFields (b : Body) : list (string * JsonVal) :=
  match b with JsonBody fields => fields | _ => [] end.

(** The state with the flag of the submit button of the form set to [b]. *)
Definition setBusy (f : Form) (b : bool) : formState f -> formState f :=
  match f with
  | AddMedication => MedicationTracker.setLoading b
  | ScheduleAppointment => AppointmentScheduler.setLoading b
  | UploadReport => MedicalReports.setLoading b
  | LogPeriod | LogSymptom => WomensHealth.setLoading b
  | LogActivity | LogMeal => LifestyleLogger.setLoading b
  | AskQuestion => AIDoctorAssistant.setLoading b
  | SignUp | SignUpTerms | Login => LoginForm.setLoading b
  end.

(** The forms whose successful reply empties a required field. *)
Definition resetsRequired (f : Form) : bool :=
  match f with
  | AddMedication | ScheduleAppointment | UploadReport
  | LogPeriod | LogSymptom | LogMeal | AskQuestion => true
  | _ => false
  end.

(** The views with a section of their own. *)
Definition sectionIds : list string :=
  ["dashboard"; "records"; "care"; "fitness"; "womens"; "reminders"; "ai-assistant"].

Definition isPlaceholder (v : DashboardPage.View) : bool :=
  match v with DashboardPage.Placeholder _ => true | _ => false end.

(** The messages of one type. *)
Definition isAi (m : ChatArea.Message) : bool :=
  match ChatArea.type m with ChatArea.ai => true | ChatArea.user => false end.
Definition isUser (m : ChatArea.Message) : bool := negb (isAi m).

(** What the chat keeps true: only reply timers wait, the ids count the
    messages from one, and each message sent has got its reply or has a
    timer waiting for it. *)
Definition chatInvariant (sys : Loop.Sys ChatArea.State) : Prop :=
  let messages := ChatArea.messages (Loop.comp sys) in
  Forall (eq (SetTimeout 1000 ChatArea.simulateReply)) (Loop.pending sys)
  /\ ChatArea.id <$> messages = seq 1 (length messages)
  /\ length (List.filter isAi messages) + length (Loop.pending sys)
     = length (List.filter isUser messages) + 1.

(** The callbacks the medication tracker registers. *)
Definition isAddReply (e : Effect MedicationTracker.State) : Prop :=
  exists req medications,
    e = Fetch req (MedicationTracker.handleAddMedication_reply medications).

Definition medicationCallback (e : Effect MedicationTracker.State) : Prop :=
  isAddReply e
  \/ (exists req, e = Fetch req MedicationTracker.fetchMedications_reply)
  \/ (exists req, e = Fetch req MedicationTracker.handleLogDose_reply).

Definition mountedMedication : Loop.Sys MedicationTracker.State :=
  Loop.mk MedicationTracker.initial [] [].

(** The submit button is disabled only while a submission is in flight. *)
Definition busyInvariant (sys : Loop.Sys MedicationTracker.State) : Prop :=
  Forall medicationCallback (Loop.pending sys)
  /\ (MedicationTracker.loading (Loop.comp sys) = true ->
      Exists isAddReply (Loop.pending sys)).

(** A medication form filled and submitted. *)
Definition medicationSubmitted : Loop.Sys MedicationTracker.State :=
  let step ev sys :=
    Loop.absorb (MedicationTracker.handle ev sampleEnv (Loop.comp sys))
                (Loop.pending sys) (Loop.trace sys) in
  step MedicationTracker.Submit
    (step (MedicationTracker.Change "frequency" "once_daily")
       (step (MedicationTracker.Change "dosage" "500mg")
          (step (MedicationTracker.Change "name" "Aspirin") mountedMedication))).

(** Dates as the number of milliseconds since the epoch, for two dates. *)
Definition sampleParse (date : option string) : option Z :=
  if bool_decide (date = Some "2024-05-03") then Some 1714694400000%Z
  else if bool_decide (date = Some "2024-04-01") then Some 1711929600000%Z
  else None.

(** The local midnight of 1 May 2024, in UTC. *)
Definition sampleToday : Z := 1714521600000.

Definition sampleAppointment : ApiData.t :=
  ApiData.mk true None [("id", "9"); ("date", "2024-05-03"); ("doctor", "Dr. Rao")] []
             "" "" "" "" "" "".

(** A question typed into the AI assistant, and the reply to it. *)
Definition sampleQuestion : AIDoctorAssistant.State :=
  AIDoctorAssistant.mkState [[("id", "1"); ("query", "Is rest enough?")]]
                            " What is a migraine? " false.

Definition sampleAnswer : ApiData.t :=
  ApiData.mk true None [] [] "c2" "A recurring headache." "" "" "" "".

(** A meal typed into the lifestyle logger. *)
Definition sampleMeal : LifestyleLogger.State :=
  LifestyleLogger.mkState
    (assign [("meal_type", "lunch"); ("description", "Dal and rice")]
            LifestyleLogger.blank)
    false None LifestyleLogger.tab_log.

(** The reply of a successful login. *)
Definition sampleLogin : ApiData.t :=
  ApiData.mk true None [] [] "" "" "tok" "42" "asha@example.org" "Asha Rao".

(** The surroundings of the dashboard after that login. *)
Definition dashboardEnv : Env :=
  mkEnv (LoginForm.storage
           (state (LoginForm.handleLogin_reply sampleEnv (Resolves sampleLogin)
                     (LoginForm.initial ∅))))
        "2024-05-01T09:31:00.000Z" "09:31 AM" (1 # 4).

Definition sampleReports : list Item :=
  [[("id", "1"); ("name", "Blood test")]; [("id", "2"); ("name", "X-ray")];
   [("name", "Unnumbered")]].

(** * Properties *)

(** ** Strings *)

Lemma includes_In (a : list string) (x : string) :
  includes a x = true <-> In x a.
Proof.
  unfold includes. rewrite existsb_exists. split.
  - intros (y & Hy & E). apply String.eqb_eq in E. now subst.
  - intros H. exists x. split; [exact H | apply String.eqb_refl].
Qed.

Lemma truthy_empty (s : string) : truthy s = false <-> s = "".
Proof. destruct s; simpl; split; congruence. Qed.

(** [split] on the dot ends with the text after the last dot, and is the
    whole name alone when there is no dot. *)
Lemma split_dot_shape (s : string) :
  match textAfterLastDot s with
  | None => split "." s = [s]
  | Some t => exists pre, pre <> [] /\ split "." s = pre ++ [t]
  end.
Proof.
  induction s as [| c r IH]; simpl; [reflexivity |].
  destruct (textAfterLastDot r) as [t |].
  - destruct IH as (pre & Hne & E). rewrite E.
    destruct (Ascii.eqb c ".").
    + exists ("" :: pre). split; [discriminate | reflexivity].
    + destruct pre as [| seg pre']; [congruence |]. simpl.
      exists (String c seg :: pre'). split; [discriminate | reflexivity].
  - rewrite IH. destruct (Ascii.eqb c ".").
    + exists [""]. split; [discriminate | reflexivity].
    + reflexivity.
Qed.

Lemma pop_split_dot (s : string) : pop (split "." s) = Some (lastSegment s).
Proof.
  unfold pop, lastSegment. pose proof (split_dot_shape s) as H.
  destruct (textAfterLastDot s) as [t |]; simpl.
  - destruct H as (pre & _ & E). rewrite E. apply last_snoc.
  - now rewrite H.
Qed.

Example split_examples :
  split "." "scan.final.PDF" = ["scan"; "final"; "PDF"]
  /\ split "." "a..b" = ["a"; ""; "b"]
  /\ split "." "pdf" = ["pdf"]
  /\ split "." "" = [""].
Proof. repeat split. Qed.

Example fileExtension_examples :
  MedicalReports.fileExtension (File.mk "scan.final.PDF" 1) = Some "pdf"
  /\ MedicalReports.fileExtension (File.mk "archive.tar.gz" 1) = Some "gz"
  /\ MedicalReports.fileExtension (File.mk "letter." 1) = Some ""
  /\ MedicalReports.fileExtension (File.mk "pdf" 1) = Some "pdf".
Proof. repeat split. Qed.

Lemma fileExtension_lastSegment (file : File.t) :
  MedicalReports.fileExtension file = Some (toLowerCase (lastSegment (File.name file))).
Proof. unfold MedicalReports.fileExtension. now rewrite pop_split_dot. Qed.

(** ** Sidebar: logout *)

Lemma handleLogout_run (store : LocalStorage) :
  Sidebar.handleLogout store
  = mkRun (Normal tt)
          (removeItem "email" (removeItem "full_name" (removeItem "token" store)))
          [Navigate "/" true].
Proof. reflexivity. Qed.

(** What logout does on every storage: the token, the name and the e-mail
    are gone, every other key is as before, and the browser is sent to the
    root path, replacing the history entry. *)
Lemma handleLogout_spec (store : LocalStorage) :
  let r := Sidebar.handleLogout store in
  getItem "token" (state r) = None
  /\ getItem "full_name" (state r) = None
  /\ getItem "email" (state r) = None
  /\ (forall k, k <> "token" -> k <> "full_name" -> k <> "email" ->
              getItem k (state r) = getItem k store)
  /\ log r = [Navigate "/" true].
Proof.
  rewrite handleLogout_run. unfold getItem, removeItem. simpl.
  repeat split; try (by simplify_map_eq).
  intros k H1 H2 H3. by rewrite !lookup_delete_ne.
Qed.

(** C1 (the code departs from the claim): after [handleLogout] on the
    storage of a signed-in user the key [user_id] is still there, so only
    three of the four session keys are removed; the navigation to the root
    path happens. *)
Theorem handleLogout_keeps_user_id :
  let r := Sidebar.handleLogout signedIn in
  getItem "user_id" (state r) = Some "42"
  /\ getItem "token" (state r) = None
  /\ getItem "email" (state r) = None
  /\ getItem "full_name" (state r) = None
  /\ log r = [Navigate "/" true].
Proof. vm_compute. repeat split. Qed.

(** ** MedicalReports: file selection *)

(** What [handleFileSelect] does with a chosen file: it keeps the file
    exactly when the lower-cased last dot-separated segment of its name
    (the text after the last dot, or the whole name when it has no dot) is
    in the allow-list and its size is at most 10 * 1024 * 1024 bytes;
    otherwise it sets an error message and clears the selected file.  In
    both cases it ends normally and does nothing outside the component: no
    request is issued. *)
Lemma handleFileSelect_checks (file : File.t) (others : list File.t)
    (st : MedicalReports.State) :
  let r := MedicalReports.handleFileSelect (file :: others) st in
  let ok := includes MedicalReports.allowedExtensions
                     (toLowerCase (lastSegment (File.name file)))
            && (File.size file <=? 10 * 1024 * 1024)%N in
  outcome r = Normal tt
  /\ log r = []
  /\ (if ok
      then MedicalReports.selectedFile (state r) = Some file
           /\ MedicalReports.fileError (state r) = ""
      else MedicalReports.selectedFile (state r) = None
           /\ truthy (MedicalReports.fileError (state r)) = true).
Proof.
  unfold MedicalReports.handleFileSelect.
  change (head (file :: others)) with (Some file). cbv beta iota.
  rewrite fileExtension_lastSegment.
  destruct (includes _ _) eqn:Hin; simpl.
  - change MedicalReports.maxSize with (10 * 1024 * 1024)%N.
    rewrite N.ltb_antisym.
    destruct (_ <=? _)%N; simpl; repeat split; reflexivity.
  - repeat split; reflexivity.
Qed.

(** C2 (the code departs from the claim): a file named pdf, without a
    dot, has no text after a last dot, so the claim has it rejected; the
    handler selects it and sets no error. *)
Theorem handleFileSelect_accepts_dotless_name :
  let file := File.mk "pdf" 1 in
  let r := MedicalReports.handleFileSelect [file] MedicalReports.initial in
  MedicalReports.selectedFile (state r) = Some file
  /\ MedicalReports.fileError (state r) = ""
  /\ ~ acceptableBySpec file.
Proof.
  split; [reflexivity | split; [reflexivity |]].
  intros (ext & H & _). discriminate H.
Qed.

(** ** Forms: validation before sending *)

Create HintDb handlers.

#[local] Hint Unfold
  MedicalReports.handleFileSelect
  MedicationTracker.handleAddMedication MedicationTracker.fetchMedications
  MedicationTracker.handleLogDose MedicationTracker.handleChange
  MedicationTracker.clickTab MedicationTracker.handle
  AppointmentScheduler.handleScheduleAppointment
  AppointmentScheduler.fetchAppointments AppointmentScheduler.handleChange
  AppointmentScheduler.clickTab AppointmentScheduler.handle
  MedicalReports.handleUploadReport MedicalReports.fetchReports
  MedicalReports.handleFetchReports MedicalReports.handleDeleteReport
  MedicalReports.handleChange MedicalReports.clickTab MedicalReports.handle
  WomensHealth.handleLogPeriod WomensHealth.handleLogSymptom
  WomensHealth.fetchPeriodHistory WomensHealth.fetchSymptomHistory
  WomensHealth.mount WomensHealth.handleChange WomensHealth.clickTab
  WomensHealth.clickViewTab WomensHealth.handle
  LifestyleLogger.handleSubmitLifestyle LifestyleLogger.handleSubmitMeal
  LifestyleLogger.fetchSummary LifestyleLogger.handleChange
  LifestyleLogger.clickTab LifestyleLogger.handle
  AIDoctorAssistant.handleAskQuestion
  AIDoctorAssistant.fetchConversationHistory AIDoctorAssistant.handle
  LoginForm.handleSignUp LoginForm.handleSignUp_terms LoginForm.handleLogin
  LoginForm.missing ChatArea.handleSendMessage ChatArea.handle
  : handlers.

Create HintDb replies.

#[local] Hint Unfold
  MedicationTracker.handleAddMedication_reply
  MedicationTracker.fetchMedications_reply
  MedicationTracker.handleLogDose_reply
  AppointmentScheduler.handleScheduleAppointment_reply
  AppointmentScheduler.fetchAppointments_reply
  MedicalReports.handleUploadReport_reply MedicalReports.fetchReports_reply
  MedicalReports.handleDeleteReport_reply WomensHealth.handleLogPeriod_reply
  WomensHealth.handleLogSymptom_reply WomensHealth.fetchPeriodHistory_reply
  WomensHealth.fetchSymptomHistory_reply
  LifestyleLogger.handleSubmitLifestyle_reply
  LifestyleLogger.handleSubmitMeal_reply LifestyleLogger.fetchSummary_reply
  AIDoctorAssistant.handleAskQuestion_reply
  AIDoctorAssistant.fetchConversationHistory_reply
  LoginForm.handleSignUp_reply LoginForm.handleLogin_reply
  LoginForm.storeSession LoginForm.redirect ChatArea.simulateReply
  : replies.

(** Unfold the handlers and run them as far as the state allows. *)
Ltac monad :=
  cbv beta iota zeta delta
    [tryCatch tryFinally mbind mret handler_bind handler_ret andThen settled
     setState emit toast_error toast_success console_error awaitFetch getState
     skip throw setTimeout outcome state log];
  simpl.
Ltac monad_in H :=
  cbv beta iota zeta delta
    [tryCatch tryFinally mbind mret handler_bind handler_ret andThen settled
     setState emit toast_error toast_success console_error awaitFetch getState
     skip throw setTimeout outcome state log] in H;
  simpl in H.
Ltac run := cbn; autounfold with handlers; monad.
Ltac run_reply := cbn; autounfold with replies handlers; monad.

Ltac split_truthy :=
  repeat match goal with
         | |- context [truthy ?x] =>
             lazymatch x with
             | EmptyString => fail
             | String _ _ => fail
             | _ => destruct (truthy x) eqn:?
             end
         end.

(** C3: for every form of every component, when a required field of the
    form state is the empty string the submit handler shows one error
    notification and returns: it issues no request and registers no
    callback. *)
Theorem submit_requires_fields (f : Form) (env : Env) (st : formState f) :
  In "" (requiredValues f st) ->
  let r := submit f env st in
  outcome r = Normal tt
  /\ requests (log r) = []
  /\ exists msg, log r = [ToastError msg].
Proof.
  intros H.
  destruct f; cbn in H;
    repeat match goal with
           | H : _ \/ _ |- _ => destruct H as [H | H]
           | H : False |- _ => destruct H
           end;
    run; rewrite H; simpl; split_truthy; simpl; repeat split; eauto.
Qed.

Lemma submit_requires_fields_witness :
  let r := submit AddMedication sampleEnv MedicationTracker.initial in
  outcome r = Normal tt
  /\ requests (log r) = []
  /\ exists msg, log r = [ToastError msg].
Proof.
  apply (submit_requires_fields AddMedication sampleEnv MedicationTracker.initial).
  simpl. left. reflexivity.
Defined.

Ltac run_in H := cbn in H; autounfold with handlers in H; monad_in H.

Ltac split_truthy_in H :=
  repeat match type of H with
         | context [truthy ?x] =>
             lazymatch x with
             | EmptyString => fail
             | String _ _ => fail
             | _ => destruct (truthy x) eqn:?
             end
         end.

Ltac single_effect H :=
  simpl in H;
  repeat match type of H with
         | _ \/ _ => destruct H as [H | H]
         | False => destruct H
         end;
  try discriminate H.

(** ** Forms: a successful reply reaches the list *)

(** C4: for the add, schedule and upload forms (and the two log forms of
    the women's health section), when the submission was sent and the reply
    has a truthy [success], the code run on the reply ends normally with
    the list on display, and either the list is the one of the render that
    submitted with the returned item appended, or a request that reloads
    the list has left, whose successful reply becomes the list. *)
Theorem successful_submission_updates_list
    (f : Form) (env : Env) (st : formState f) (req : Request.t)
    (resume : Env -> FetchResult -> Handler (formState f) unit)
    (env' : Env) (data : ApiData.t) (cur : formState f) :
  In f [AddMedication; ScheduleAppointment; UploadReport; LogPeriod; LogSymptom] ->
  In (Fetch req resume) (log (submit f env st)) ->
  ApiData.success data = true ->
  let r := resume env' (Resolves data) cur in
  outcome r = Normal tt
  /\ listShown f (state r)
  /\ if appends f
     then listState f (state r) = listState f st ++ [ApiData.item data]
     else In (Fetch (reloadRequest f env') (reloadReply f)) (log r)
          /\ forall env'' data' cur',
               listState f (state (reloadReply f env'' (Resolves data') cur'))
               = if ApiData.success data' then ApiData.items data'
                 else listState f cur'.
Proof.
  intros Hf Hsent Hok.
  destruct f; simpl in Hf; try (exfalso; intuition discriminate); clear Hf;
    run_in Hsent; split_truthy_in Hsent.
  all: try (single_effect Hsent; fail).
  all: try (destruct (MedicalReports.selectedFile st); single_effect Hsent; fail).
  all: try destruct (MedicalReports.selectedFile st).
  all: single_effect Hsent; injection Hsent as _ <-; run_reply; rewrite Hok; monad.
  all: repeat split; try reflexivity; auto.
  all: intros env'' data' cur'; run_reply; destruct (ApiData.success data'); reflexivity.
Qed.

Lemma successful_submission_updates_list_witness :
  let r := onReply (Submission AddMedication) sampleMedication
                   sampleEnv (Resolves sampleData) sampleMedication in
  outcome r = Normal tt
  /\ MedicationTracker.activeTab (state r) = MedicationTracker.view
  /\ MedicationTracker.medications (state r) = [] ++ [ApiData.item sampleData].
Proof.
  apply (successful_submission_updates_list AddMedication sampleEnv sampleMedication
           (MedicationTracker.addRequest sampleEnv
              (MedicationTracker.formData sampleMedication))
           (onReply (Submission AddMedication) sampleMedication)
           sampleEnv sampleData sampleMedication).
  - simpl. left. reflexivity.
  - left. reflexivity.
  - reflexivity.
Defined.

(** ** Forms: what validation consists of *)

Lemma trim_empty : trim "" = "".
Proof. reflexivity. Qed.

Lemma truthy_trim (s : string) : truthy (trim s) = true -> truthy s = true.
Proof. destruct s; [discriminate | reflexivity]. Qed.

Lemma short_password (n : nat) : (n <? 8) = negb (8 <=? n).
Proof. apply Nat.ltb_antisym. Qed.

#[local] Arguments Nat.leb : simpl never.
#[local] Arguments Nat.ltb : simpl never.

(** C5, as amended: a submit handler sends its request exactly when every
    required field holds some text and the further checks of its form pass;
    otherwise it shows one error notification and sends nothing.  The
    further checks are: for sign-up, that the password equals its
    confirmation and has at least 8 characters (and, in the second version
    of the form, that the terms are agreed to); for the report upload, that
    a file is selected; for the question to the AI, that it is not blank
    after trimming.  Every other form checks presence only. *)
Theorem submit_validation (f : Form) (env : Env) (st : formState f) :
  let r := submit f env st in
  (if allPresent f st && furtherChecks f st
   then exists req, log r = [Fetch req (onReply (Submission f) st)]
   else requests (log r) = [] /\ exists msg, log r = [ToastError msg])
  /\ (furtherChecks f st = true
      \/ In f [UploadReport; AskQuestion; SignUp; SignUpTerms]).
Proof.
  split.
  - destruct f; unfold allPresent; run; rewrite ?short_password;
      try (destruct (MedicalReports.selectedFile st); simpl);
      try (destruct (truthy (trim (AIDoctorAssistant.question st))) eqn:Hq;
           [apply truthy_trim in Hq; rewrite Hq |]; simpl);
      split_truthy; simpl;
      repeat match goal with
             | |- context [String.eqb ?a ?b] => destruct (String.eqb a b); simpl
             | |- context [8 <=? ?n] => destruct (8 <=? n); simpl
             | |- context [LoginForm.agreedToTerms ?s] =>
                 destruct (LoginForm.agreedToTerms s); simpl
             end;
      rewrite ?andb_false_r; simpl; eauto.
  - destruct f; simpl; auto 10.
Qed.

(** C5, as stated, fails: with every field of the sign-up form filled and
    the password confirmed, a password of seven characters stops the
    submission before any request. *)
Lemma signup_checks_password_length :
  allPresent SignUp sampleSignUp = true
  /\ log (submit SignUp sampleEnv sampleSignUp)
     = [ToastError "Password must be at least 8 characters"]
  /\ requests (log (submit SignUp sampleEnv sampleSignUp)) = [].
Proof. repeat split. Qed.

(** ** Network operations: failures *)

Ltac on_failure result Hf :=
  destruct result as [? | data]; simpl in Hf;
  [| destruct (ApiData.success data) eqn:?; [discriminate Hf |]].

(** C6, as amended: when the reply to any network operation is a failure
    (a rejected promise or data without a truthy [success]), the code run
    on it ends normally, so no exception escapes, and registers no
    callback, so nothing is retried.  A form submission leaves the flag
    that disables its submit button cleared; every other operation leaves
    the state as it was.  What the failure does outside the component is
    exactly this, in this order:
    - the eleven form submissions and the dose log show one error
      notification: for a non-success reply the error text of the server
      when it has one and the fixed fallback of the operation when it has
      none; for an exception a fixed text of the operation, with the
      exception written to the console after it, except in the login form,
      where the notification is Error: and the message of the exception
      and nothing goes to the console;
    - the load of the reports and the deletion of a report show one error
      notification with a fixed text of the operation, never the text of
      the server, and write an exception to the console;
    - the six background loads of medications, appointments, periods,
      symptoms, summary and conversation history show no notification: an
      exception goes to the console after the text of the operation, and a
      non-success reply is dropped without any effect. *)
Theorem failure_is_absorbed (o : Operation) (closure : opState o) (env : Env)
    (result : FetchResult) (cur : opState o) :
  isFailure result = true ->
  let r := onReply o closure env result cur in
  outcome r = Normal tt
  /\ List.filter isCallback (log r) = []
  /\ match o as o' return opState o' -> opState o' -> Prop with
     | Submission f => fun after _ => busy f after = false
     | _ => fun after before => after = before
     end (state r) cur
  /\ log r = failureLog (surfacing o) result
  /\ isQuiet (surfacing o) = silent o
  /\ length (List.filter isToast (log r)) = (if silent o then 0 else 1).
Proof.
  intros Hf.
  destruct o as [[] | | | | | | | | |]; on_failure result Hf;
    run_reply; rewrite ?Heqb; monad; repeat split.
Qed.

Lemma failure_is_absorbed_witness :
  let r := onReply (Submission AddMedication) sampleMedication sampleEnv
                   (Rejects "Failed to fetch") sampleMedication in
  outcome r = Normal tt
  /\ List.filter isCallback (log r) = []
  /\ MedicationTracker.loading (state r) = false
  /\ log r = [ToastError "Error adding medication"; ConsoleError "Failed to fetch"].
Proof.
  destruct (failure_is_absorbed (Submission AddMedication) sampleMedication sampleEnv
              (Rejects "Failed to fetch") sampleMedication eq_refl)
    as (H1 & H2 & H3 & H4 & _).
  exact (conj H1 (conj H2 (conj H3 H4))).
Defined.

(** C6, as stated, fails: when the request that loads the medications is
    rejected, or answered without success, no notification is shown; the
    rejection is written to the console only. *)
Lemma background_load_fails_silently :
  let rejected := onReply LoadMedications MedicationTracker.initial sampleEnv
                          (Rejects "Failed to fetch") MedicationTracker.initial in
  let refused := onReply LoadMedications MedicationTracker.initial sampleEnv
                         (Resolves (ApiData.mk false (Some "Token expired") [] []
                                               "" "" "" "" "" ""))
                         MedicationTracker.initial in
  log rejected = [ConsoleError "Error fetching medications: Failed to fetch"]
  /\ List.filter isToast (log rejected) = []
  /\ log refused = [].
Proof. repeat split. Qed.

(** ** Requests: the bearer token *)

Lemma authorized_intro {S} (depth : nat) (h : Env -> Handler S unit) :
  (forall env s,
      Forall (fun e =>
        match e with
        | Fetch req resume =>
            carriesToken env req
            /\ forall d result, authorized d (fun env' => resume env' result)
        | SetTimeout _ callback => forall d, authorized d callback
        | _ => True
        end) (log (h env s))) ->
  authorized depth h.
Proof.
  intros H. destruct depth; simpl; intros env s;
    (eapply Forall_impl; [apply H |]);
    intros [req resume | ms callback | | | |]; simpl; try tauto.
  - intros [Ht Hr]. split; [exact Ht | apply Hr].
  - intros Hc. apply Hc.
Qed.

(** Code that registers no callback and sends nothing is authorized. *)
Lemma authorized_quiet {S} (depth : nat) (h : Env -> Handler S unit) :
  (forall env s, List.filter isCallback (log (h env s)) = []) ->
  authorized depth h.
Proof.
  intros H. apply authorized_intro. intros env s.
  specialize (H env s). induction (log (h env s)) as [| e l IH]; [constructor |].
  simpl in H. destruct e; simpl in H; try discriminate; constructor; auto.
Qed.

(** Case analysis on what a handler branches on: the reply, a condition,
    an optional value. *)
Ltac cases :=
  repeat match goal with
         | |- context [settled ?r] => is_var r; destruct r
         | |- context [if ?b then _ else _] => destruct b eqn:?
         | |- context [match ?o with Some _ => _ | None => _ end] => destruct o eqn:?
         end.

Ltac open_reply := cbv beta; autounfold with replies; autounfold with handlers.

Ltac quiet :=
  apply authorized_quiet; intros ? ?; open_reply;
  repeat (cases; monad); reflexivity.

Ltac sends_reply :=
  apply authorized_intro; intros ? ?; open_reply;
  repeat (cases; monad); repeat constructor; intros; quiet.

Ltac sends :=
  apply authorized_intro; intros ? ?; cbn; autounfold with handlers;
  repeat (cases; monad); repeat constructor; intros;
  first [quiet | sends_reply].

Lemma authorized_MedicationTracker depth ev :
  authorized depth (MedicationTracker.handle ev).
Proof. destruct ev as [| | | | []]; sends. Qed.

Lemma authorized_AppointmentScheduler depth ev :
  authorized depth (AppointmentScheduler.handle ev).
Proof. destruct ev as [| | | []]; sends. Qed.

Lemma authorized_MedicalReports depth ev :
  authorized depth (MedicalReports.handle ev).
Proof. destruct ev as [| | | | [] | []]; sends. Qed.

Lemma authorized_WomensHealth depth ev :
  authorized depth (WomensHealth.handle ev).
Proof. destruct ev as [| | | | [] |]; sends. Qed.

Lemma authorized_LifestyleLogger depth ev :
  authorized depth (LifestyleLogger.handle ev).
Proof. destruct ev as [| | | | []]; sends. Qed.

Lemma authorized_AIDoctorAssistant depth ev :
  authorized depth (AIDoctorAssistant.handle ev).
Proof. destruct ev; sends. Qed.

Lemma authorized_ChatArea depth ev : authorized depth (ChatArea.handle ev).
Proof. destruct ev; sends. Qed.

(** C7: every request issued by the handlers of the six components that
    talk to the authenticated endpoints, and by every callback they
    register, however deep, has the header Authorization with the value
    Bearer, a space, and the value read under the key token from the local
    storage at the time of the request (the text null when the key is
    absent).  The chat area issues no request.  The requests of the login
    form, to /auth/signup and /auth/login, have no such header. *)
Theorem requests_carry_token (depth : nat) :
  (forall ev, authorized depth (MedicationTracker.handle ev))
  /\ (forall ev, authorized depth (AppointmentScheduler.handle ev))
  /\ (forall ev, authorized depth (MedicalReports.handle ev))
  /\ (forall ev, authorized depth (WomensHealth.handle ev))
  /\ (forall ev, authorized depth (LifestyleLogger.handle ev))
  /\ (forall ev, authorized depth (AIDoctorAssistant.handle ev))
  /\ (forall ev, authorized depth (ChatArea.handle ev))
  /\ (forall st, Request.header "Authorization" (LoginForm.signupRequest st) = None
                 /\ Request.header "Authorization" (LoginForm.loginRequest st) = None).
Proof.
  repeat split;
    auto using authorized_MedicationTracker, authorized_AppointmentScheduler,
      authorized_MedicalReports, authorized_WomensHealth, authorized_LifestyleLogger,
      authorized_AIDoctorAssistant, authorized_ChatArea.
Qed.

(** ** Tabs *)

(** The sign-in / sign-up switch of the login form, which is not a tab of
    a section component, does clear what was typed. *)
Remark toggle_clears_fields (st : LoginForm.State) :
  let st' := state (LoginForm.toggle st) in
  LoginForm.email st' = "" /\ LoginForm.password st' = ""
  /\ LoginForm.confirmPassword st' = "" /\ LoginForm.fullName st' = ""
  /\ LoginForm.age st' = "" /\ LoginForm.gender st' = "male"
  /\ LoginForm.isSignUp st' = negb (LoginForm.isSignUp st).
Proof. repeat split. Qed.

(** C8: in every section component with tabs, the click handler of each tab
    button leaves the form-state object as it was, and the only callback it
    may register, the reply to the request that reloads the list, leaves
    the form state it finds unchanged as well.  In the medical reports the
    selected file is kept too. *)
Theorem tab_switch_keeps_form :
  (forall tab env st,
      let r := MedicationTracker.clickTab tab env st in
      MedicationTracker.formData (state r) = MedicationTracker.formData st
      /\ Forall (eq (Fetch (MedicationTracker.activeRequest env)
                           MedicationTracker.fetchMedications_reply)) (log r))
  /\ (forall env result cur,
         MedicationTracker.formData
           (state (MedicationTracker.fetchMedications_reply env result cur))
         = MedicationTracker.formData cur)
  /\ (forall tab env st,
         let r := AppointmentScheduler.clickTab tab env st in
         AppointmentScheduler.formData (state r) = AppointmentScheduler.formData st
         /\ Forall (eq (Fetch (AppointmentScheduler.upcomingRequest env)
                              AppointmentScheduler.fetchAppointments_reply)) (log r))
  /\ (forall env result cur,
         AppointmentScheduler.formData
           (state (AppointmentScheduler.fetchAppointments_reply env result cur))
         = AppointmentScheduler.formData cur)
  /\ (forall tab env st,
         let r := MedicalReports.clickTab tab env st in
         MedicalReports.formData (state r) = MedicalReports.formData st
         /\ MedicalReports.selectedFile (state r) = MedicalReports.selectedFile st
         /\ Forall (eq (Fetch (MedicalReports.listRequest env)
                              MedicalReports.fetchReports_reply)) (log r))
  /\ (forall env result cur,
         let r := MedicalReports.fetchReports_reply env result cur in
         MedicalReports.formData (state r) = MedicalReports.formData cur
         /\ MedicalReports.selectedFile (state r) = MedicalReports.selectedFile cur)
  /\ (forall tab st,
         let r := WomensHealth.clickTab tab st in
         WomensHealth.formData (state r) = WomensHealth.formData st /\ log r = [])
  /\ (forall tab st,
         let r := WomensHealth.clickViewTab tab st in
         WomensHealth.formData (state r) = WomensHealth.formData st /\ log r = [])
  /\ (forall tab st,
         let r := LifestyleLogger.clickTab tab st in
         LifestyleLogger.formData (state r) = LifestyleLogger.formData st /\ log r = []).
Proof.
  assert (Hclick : forall S (e : Effect S), Forall (eq e) [e])
    by (repeat constructor).
  repeat apply conj.
  - intros [] env st; run; auto.
  - intros env [| data] cur; run_reply; [| destruct (ApiData.success data)]; reflexivity.
  - intros [] env st; run; auto.
  - intros env [| data] cur; run_reply; [| destruct (ApiData.success data)]; reflexivity.
  - intros [] env st; run; auto.
  - intros env [| data] cur; run_reply; [| destruct (ApiData.success data)];
      split; reflexivity.
  - intros [] st; run; auto.
  - intros tab st; run; auto.
  - intros tab st; run; auto.
Qed.

(** ** The event loop: invariants *)

Section Safety.
Context {S Event : Type}.
Variable handle : Event -> Env -> Handler S unit.
Variables (P : S -> Prop) (Q K : Effect S -> Prop).

Hypothesis handle_safe : forall ev env s,
    validEnv env -> P s -> safe P Q K (handle ev env s).
Hypothesis reply_safe : forall req resume env result s,
    K (Fetch req resume) -> validEnv env -> P s -> safe P Q K (resume env result s).
Hypothesis timer_safe : forall ms callback env s,
    K (SetTimeout ms callback) -> validEnv env -> P s -> safe P Q K (callback env s).

Lemma absorb_holds r waiting done :
  safe P Q K r -> Forall K waiting -> Forall Q done ->
  holds P Q K (Loop.absorb r waiting done).
Proof.
  intros (Hp & Hq & Hk) Hw Hd. unfold holds, Loop.absorb; simpl.
  repeat split; [exact Hp | |]; apply Forall_app; auto.
Qed.

Lemma step_holds sys sys' :
  holds P Q K sys -> Loop.step handle sys sys' -> holds P Q K sys'.
Proof.
  intros (Hp & Hq & Hk) Hstep.
  destruct Hstep as [sys ev env Henv | sys i req resume env result Henv Hi
                     | sys i ms callback env Henv Hi].
  - apply absorb_holds; auto.
  - apply absorb_holds; auto using Forall_delete.
    eapply reply_safe; eauto. eapply Forall_lookup_1; eauto.
  - apply absorb_holds; auto using Forall_delete.
    eapply timer_safe; eauto. eapply Forall_lookup_1; eauto.
Qed.

Lemma reachable_holds init sys :
  holds P Q K init -> Loop.reachable handle init sys -> holds P Q K sys.
Proof.
  intros Hinit Hreach. induction Hreach as [| sys sys' _ IH Hstep].
  - exact Hinit.
  - eapply step_holds; eauto.
Qed.
End Safety.

Lemma validEnv_sample : validEnv sampleEnv.
Proof. split; [discriminate | reflexivity]. Qed.

(** ** ChatArea: simulated replies *)

Lemma randomResponse_scripted (env : Env) :
  validEnv env ->
  exists s, ChatArea.randomResponse env = Some s /\ In s ChatArea.aiResponses.
Proof.
  intros [Hlo Hhi]. unfold ChatArea.randomResponse, ChatArea.index.
  change (inject_Z (Z.of_nat (length ChatArea.aiResponses))) with (inject_Z 4).
  set (q := (random env * inject_Z 4)%Q).
  assert (H0 : (0 <= Qfloor q)%Z).
  { change 0%Z with (Qfloor 0). apply Qfloor_resp_le. unfold q.
    apply Qmult_le_0_compat; [exact Hlo | discriminate]. }
  assert (H4 : (Qfloor q < 4)%Z).
  { rewrite Zlt_Qlt. eapply Qle_lt_trans; [apply Qfloor_le |]. unfold q.
    change (inject_Z 4) with (1 * inject_Z 4)%Q at 2.
    apply Qmult_lt_compat_r; [reflexivity | exact Hhi]. }
  destruct (Z.ltb_spec (Qfloor q) 0) as [Hneg | _]; [lia |].
  assert (Hn : (Z.to_nat (Qfloor q) < 4)%nat) by lia.
  destruct (Z.to_nat (Qfloor q)) as [| [| [| [| n]]]]; simpl; try lia;
    eexists; (split; [reflexivity |]); simpl; auto.
Qed.

Lemma Forall_snoc {A} (P : A -> Prop) (l : list A) (x : A) :
  Forall P l -> P x -> Forall P (l ++ [x]).
Proof.
  intros Hl Hx. induction Hl as [| y l Hy _ IH]; simpl; constructor; auto.
Qed.

Lemma scripted_user id text time :
  scripted (ChatArea.mkMessage id ChatArea.user text time).
Proof. intros H. discriminate H. Qed.

Lemma chat_handle_safe ev env s :
  validEnv env -> allScripted s ->
  safe allScripted (fun _ => True) chatCallback (ChatArea.handle ev env s).
Proof.
  intros _ Hs. unfold safe, allScripted in *.
  destruct ev; run; repeat (cases; monad); repeat split; auto;
    try (repeat constructor; fail).
  all: apply Forall_snoc; [exact Hs | apply scripted_user].
Qed.

Lemma chat_timer_safe ms callback env s :
  chatCallback (SetTimeout ms callback) -> validEnv env -> allScripted s ->
  safe allScripted (fun _ => True) chatCallback (callback env s).
Proof.
  intros Hk Henv Hs. unfold chatCallback in Hk. injection Hk as _ ->.
  unfold safe, allScripted in *.
  run_reply. repeat split; try constructor.
  apply Forall_snoc; [exact Hs |].
  intros _. right. simpl. apply randomResponse_scripted, Henv.
Qed.

(** C9: in every state the chat area can reach from its mount by typing,
    sending and timers firing, with [Math.random] in [0, 1), each message
    of type ai is the initial greeting or has as text one of the four
    strings of [aiResponses]. *)
Theorem simulated_replies_are_scripted (sys : Loop.Sys ChatArea.State) :
  Loop.reachable ChatArea.handle ChatArea.mounted sys ->
  Forall scripted (ChatArea.messages (Loop.comp sys)).
Proof.
  intros Hreach.
  apply (reachable_holds ChatArea.handle allScripted (fun _ => True) chatCallback
           chat_handle_safe) with (init := ChatArea.mounted) (sys := sys).
  - intros req resume env result s Hk. unfold chatCallback in Hk. discriminate Hk.
  - apply chat_timer_safe.
  - repeat split; repeat constructor.
  - exact Hreach.
Qed.

Lemma chatAnswered_reachable :
  Loop.reachable ChatArea.handle ChatArea.mounted chatAnswered.
Proof.
  eapply Loop.reach_step; [eapply Loop.reach_step; [eapply Loop.reach_step |] |].
  - apply Loop.reach_init.
  - apply (Loop.step_event ChatArea.handle ChatArea.mounted
             (ChatArea.Change "I have a headache") sampleEnv validEnv_sample).
  - apply (Loop.step_event ChatArea.handle chatTyped ChatArea.Click sampleEnv
             validEnv_sample).
  - apply (Loop.step_timer ChatArea.handle chatSent 0 1000 ChatArea.simulateReply
             sampleEnv validEnv_sample). reflexivity.
Defined.

Lemma simulated_replies_are_scripted_witness :
  Forall scripted (ChatArea.messages (Loop.comp chatAnswered))
  /\ ChatArea.text <$> ChatArea.messages (Loop.comp chatAnswered)
     = [ChatArea.text ChatArea.greeting; Some "I have a headache";
        Some "Here are some wellness tips for your health concern..."].
Proof.
  split; [| reflexivity].
  apply (simulated_replies_are_scripted chatAnswered). exact chatAnswered_reachable.
Defined.

(** ** MedicalReports: what is uploaded *)

Lemma handleFileSelect_valid files s :
  selectionValid s -> selectionValid (state (MedicalReports.handleFileSelect files s)).
Proof.
  intros Hs. unfold selectionValid, MedicalReports.handleFileSelect in *.
  destruct (head files) as [file |]; [| exact I].
  destruct (MedicalReports.fileExtension file) as [ext |] eqn:Hext; [| exact Hs].
  destruct (negb (includes MedicalReports.allowedExtensions ext)) eqn:Hin; [exact I |].
  destruct (MedicalReports.maxSize <? File.size file)%N eqn:Hsize; [exact I |].
  simpl. unfold MedicalReports.passesValidation. rewrite Hext.
  apply negb_false_iff in Hin. apply N.ltb_ge in Hsize.
  rewrite Hin. now apply N.leb_le.
Qed.

Lemma callback_list req : reportsCallback (Fetch req MedicalReports.fetchReports_reply).
Proof. left. reflexivity. Qed.

Lemma callback_upload req reports :
  reportsCallback (Fetch req (MedicalReports.handleUploadReport_reply reports)).
Proof. right. left. eexists. reflexivity. Qed.

Lemma callback_delete req reports reportId :
  reportsCallback (Fetch req (MedicalReports.handleDeleteReport_reply reports reportId)).
Proof. right. right. do 2 eexists. reflexivity. Qed.

#[local] Arguments selectionValid : simpl never.
#[local] Arguments uploadValid : simpl never.

Ltac safe_run Hs :=
  split; [| split];
  [ unfold selectionValid in *; simpl; try exact Hs; try exact I
  | repeat (apply List.Forall_cons || apply List.Forall_nil); unfold uploadValid; simpl; auto
  | repeat (apply List.Forall_cons || apply List.Forall_nil);
    auto using callback_list, callback_upload, callback_delete ].

Lemma reports_handle_safe ev env s :
  validEnv env -> selectionValid s ->
  safe selectionValid uploadValid reportsCallback (MedicalReports.handle ev env s).
Proof.
  intros _ Hs. unfold safe.
  destruct ev as [| name value | files | | [] | confirmed reportId].
  - run. safe_run Hs.
  - run. safe_run Hs.
  - split; [now apply handleFileSelect_valid |].
    run; autounfold with handlers; repeat (cases; monad); split; constructor.
  - run. destruct (_ || _); monad; [safe_run Hs |].
    destruct (MedicalReports.selectedFile s) as [file |] eqn:Hfile; monad;
      [| safe_run Hs].
    unfold selectionValid in Hs. rewrite Hfile in Hs.
    split; [| split];
      [ unfold selectionValid; simpl; rewrite Hfile; exact Hs
      | apply List.Forall_cons; [exact Hs | apply List.Forall_nil]
      | apply List.Forall_cons; [apply callback_upload | apply List.Forall_nil] ].
  - run. safe_run Hs.
  - run. safe_run Hs.
  - run. destruct confirmed; monad; safe_run Hs.
Qed.

Lemma reports_reply_safe req resume env result s :
  reportsCallback (Fetch req resume) -> validEnv env -> selectionValid s ->
  safe selectionValid uploadValid reportsCallback (resume env result s).
Proof.
  intros Hk _ Hs. unfold safe.
  destruct Hk as [-> | [(reports & ->) | (reports & reportId & ->)]];
    run_reply; destruct result as [m | data]; monad;
    try destruct (ApiData.success data); monad; safe_run Hs.
Qed.

(** C10: in every state the medical reports can reach from their mount,
    the selected file is absent or passed the extension and the size check
    of [handleFileSelect]; every upload request the component has issued
    carries a file that passed them; and the submit handler, run on a state
    without a selected file, issues no request. *)
Theorem only_validated_files_are_uploaded (sys : Loop.Sys MedicalReports.State) :
  Loop.reachable MedicalReports.handle MedicalReports.mounted sys ->
  selectionValid (Loop.comp sys)
  /\ Forall uploadValid (Loop.trace sys)
  /\ forall env st,
       requests (log (MedicalReports.handleUploadReport env
                        (MedicalReports.setSelectedFile None st))) = [].
Proof.
  intros Hreach. split; [| split].
  1, 2: apply (reachable_holds MedicalReports.handle selectionValid uploadValid
                 reportsCallback reports_handle_safe reports_reply_safe)
          with (init := MedicalReports.mounted) (sys := sys);
        [ intros ms callback env s [] | repeat split; constructor | exact Hreach ].
  intros env st. run. repeat (cases; monad); reflexivity.
Qed.

Lemma uploadSubmitted_reachable :
  Loop.reachable MedicalReports.handle MedicalReports.mounted uploadSubmitted.
Proof.
  unfold uploadSubmitted.
  repeat (eapply Loop.reach_step;
          [| apply Loop.step_event; exact validEnv_sample]).
  apply Loop.reach_init.
Defined.

Lemma only_validated_files_are_uploaded_witness :
  selectionValid (Loop.comp uploadSubmitted)
  /\ Forall uploadValid (Loop.trace uploadSubmitted)
  /\ MedicalReports.uploadedFile <$> Loop.trace uploadSubmitted = [Some sampleFile].
Proof.
  destruct (only_validated_files_are_uploaded uploadSubmitted
              uploadSubmitted_reachable) as (H1 & H2 & _).
  split; [exact H1 | split; [exact H2 | reflexivity]].
Defined.

(** * Further properties *)

(** ** Strings: case and replacement *)

Lemma toUpperCaseChar_not_lower (c : ascii) :
  isLowerCaseLetter (toUpperCaseChar c) = false.
Proof. destruct c as [[] [] [] [] [] [] [] []]; reflexivity. Qed.

Lemma toUpperCaseChar_letter (c : ascii) :
  isLowerCaseLetter c = true ->
  isLetter c = true /\ isLetter (toUpperCaseChar c) = true.
Proof. destruct c as [[] [] [] [] [] [] [] []]; try discriminate; split; reflexivity. Qed.

Lemma toUpperCaseChar_other (c : ascii) :
  isLowerCaseLetter c = false -> toUpperCaseChar c = c.
Proof. destruct c as [[] [] [] [] [] [] [] []]; try discriminate; reflexivity. Qed.

Lemma letter_differs (a x : ascii) :
  isLetter a = true -> isLetter x = false -> Ascii.eqb a x = false.
Proof. intros Ha Hx. apply Ascii.eqb_neq. intros ->. congruence. Qed.

(** Upper-casing does not make or unmake a character that is no letter. *)
Lemma toUpperCaseChar_keeps (c x : ascii) :
  isLetter x = false ->
  Ascii.eqb (toUpperCaseChar c) x = Ascii.eqb c x.
Proof.
  intros Hx. destruct (isLowerCaseLetter c) eqn:Hc.
  - destruct (toUpperCaseChar_letter c Hc) as [H1 H2].
    now rewrite !letter_differs.
  - now rewrite toUpperCaseChar_other.
Qed.

Lemma toUpperCase_noLowerCase (s : string) : noLowerCase (toUpperCase s) = true.
Proof.
  induction s as [| c r IH]; [reflexivity |].
  unfold noLowerCase in *. simpl. now rewrite toUpperCaseChar_not_lower, IH.
Qed.

Lemma toUpperCase_length (s : string) : String.length (toUpperCase s) = String.length s.
Proof. induction s as [| c r IH]; simpl; congruence. Qed.

Lemma toUpperCase_occurrences (x : ascii) (s : string) :
  isLetter x = false -> occurrences x (toUpperCase s) = occurrences x s.
Proof.
  intros Hx. induction s as [| c r IH]; [reflexivity |].
  simpl. now rewrite toUpperCaseChar_keeps, IH.
Qed.

Lemma replaceAll_occurrences (c d : ascii) (s : string) :
  c <> d -> occurrences c (replaceAll c d s) = 0.
Proof.
  intros Hne. induction s as [| x r IH]; [reflexivity |]. simpl. rewrite IH.
  destruct (Ascii.eqb_spec x c) as [-> | Hx].
  - destruct (Ascii.eqb_spec d c); [congruence | reflexivity].
  - destruct (Ascii.eqb_spec x c); [congruence | reflexivity].
Qed.

Lemma replaceAll_length (c d : ascii) (s : string) :
  String.length (replaceAll c d s) = String.length s.
Proof. induction s as [| x r IH]; simpl; congruence. Qed.




(** ** Labels of the list views *)


Example frequencyLabel_three_times :
  MedicationTracker.frequencyLabel "three_times_daily" = "THREE TIMES_DAILY".
Proof. reflexivity. Qed.

(** X2.  The status label of an appointment (and the flow label of a period,
    the same expression) changes the first character only: its length and
    everything after the first character are those of the status, the empty
    status gives the empty label, and labelling twice is labelling once. *)
Theorem statusLabel_first_character (status : string) :
  String.length (AppointmentScheduler.statusLabel status) = String.length status
  /\ sliceFrom1 (AppointmentScheduler.statusLabel status) = sliceFrom1 status
  /\ noLowerCase (charAt0 (AppointmentScheduler.statusLabel status)) = true
  /\ AppointmentScheduler.statusLabel (AppointmentScheduler.statusLabel status)
     = AppointmentScheduler.statusLabel status
  /\ WomensHealth.flowLabel status = AppointmentScheduler.statusLabel status.
Proof.
  unfold AppointmentScheduler.statusLabel, WomensHealth.flowLabel.
  destruct status as [| c r]; [repeat split |]. simpl.
  repeat split.
  - unfold noLowerCase. simpl. now rewrite toUpperCaseChar_not_lower.
  - do 2 f_equal. apply toUpperCaseChar_other, toUpperCaseChar_not_lower.
Qed.

(** ** DashboardPage: sections *)

(** X3.  [renderSection] mounts a section of its own exactly for the seven ids
    it names; for every other id it shows the placeholder, whose heading
    has the length of the id, no hyphen and no lower-case letter.  Of the
    items of the sidebar menu, the one with id learning, and only it, leads
    to the placeholder. *)
Theorem renderSection_views (activeSection : string) :
  match DashboardPage.renderSection activeSection with
  | DashboardPage.Placeholder heading =>
      ~ In activeSection sectionIds
      /\ String.length heading = String.length activeSection
      /\ occurrences "-" heading = 0
      /\ noLowerCase heading = true
  | _ => In activeSection sectionIds
  end
  /\ List.filter (fun id => isPlaceholder (DashboardPage.renderSection id))
                 Sidebar.menuItems = ["learning"].
Proof.
  split; [| reflexivity].
  unfold DashboardPage.renderSection, sectionIds.
  repeat match goal with
         | |- context [String.eqb activeSection ?k] =>
             destruct (String.eqb_spec activeSection k) as [-> | ?];
             [simpl; tauto |]
         end.
  repeat split.
  - simpl. intuition congruence.
  - now rewrite toUpperCase_length, replaceAll_length.
  - rewrite toUpperCase_occurrences by reflexivity.
    apply replaceAll_occurrences. discriminate.
  - apply toUpperCase_noLowerCase.
Qed.

(** A click on a menu item of the sidebar makes its id the active section,
    whatever the section before, and does nothing else. *)
Lemma clickMenu_selects (id before : string) :
  DashboardPage.clickMenu id before = mkRun (Normal tt) id [].
Proof. reflexivity. Qed.

(** ** Sidebar: the profile *)

Lemma substring0_length (n : nat) (s : string) :
  String.length (String.substring 0 n s) <= n.
Proof.
  revert s. induction n as [| n IH]; intros [| c r]; simpl; try lia.
  specialize (IH r). lia.
Qed.

Lemma forallChars_substring0 (p : ascii -> bool) (n : nat) (s : string) :
  forallChars p s = true -> forallChars p (String.substring 0 n s) = true.
Proof.
  revert s. induction n as [| n IH]; intros [| c r]; simpl; auto.
  intros H. apply andb_prop in H as [Hc Hr]. rewrite Hc. now apply IH.
Qed.

Lemma truthy_substring0 (n : nat) (s : string) :
  truthy (String.substring 0 (Datatypes.S n) s) = truthy s.
Proof. destruct s; reflexivity. Qed.

Lemma forallChars_append (p : ascii -> bool) (a b : string) :
  forallChars p (a +:+ b) = forallChars p a && forallChars p b.
Proof.
  induction a as [| c r IH]; [reflexivity |]. simpl. rewrite IH. apply andb_assoc.
Qed.

Lemma join_cons (x : string) (l : list string) : join (x :: l) = x +:+ join l.
Proof. reflexivity. Qed.

Lemma noLowerCase_letters (parts : list string) :
  noLowerCase (join ((fun part => toUpperCase (charAt0 part)) <$> parts)) = true.
Proof.
  induction parts as [| part parts IH]; [reflexivity |].
  rewrite fmap_cons, join_cons. unfold noLowerCase in *.
  rewrite forallChars_append, IH, andb_true_r.
  apply toUpperCase_noLowerCase.
Qed.

(** The letters of a name are all missing exactly when the name is made of
    spaces only. *)
Lemma letters_of_spaces (name : string) :
  truthy (join ((fun part => toUpperCase (charAt0 part)) <$> split " " name))
  = negb (forallChars (fun c => Ascii.eqb c " ") name).
Proof.
  induction name as [| c r IH]; [reflexivity |]. simpl.
  destruct (Ascii.eqb c " "); simpl; [exact IH |].
  destruct (split " " r); reflexivity.
Qed.

Lemma initialsOf_short (fullName : string) :
  String.length (Sidebar.initialsOf fullName) <= 2
  /\ noLowerCase (Sidebar.initialsOf fullName) = true.
Proof.
  unfold Sidebar.initialsOf, slice. rewrite Nat.sub_0_r. split.
  - etransitivity; [apply substring0_length | apply Nat.le_min_l].
  - apply forallChars_substring0, noLowerCase_letters.
Qed.

Lemma initialsOf_truthy (fullName : string) :
  truthy (Sidebar.initialsOf fullName)
  = negb (forallChars (fun c => Ascii.eqb c " ") fullName).
Proof.
  unfold Sidebar.initialsOf, slice. rewrite Nat.sub_0_r, <- letters_of_spaces.
  destruct (join _) as [| a [| b r]]; reflexivity.
Qed.

(** X4.  The initials the sidebar shows for a name have at most two characters,
    none of them a lower-case letter, and are empty exactly when the name
    consists of spaces only. *)
Theorem initialsOf_shape (fullName : string) :
  String.length (Sidebar.initialsOf fullName) <= 2
  /\ noLowerCase (Sidebar.initialsOf fullName) = true
  /\ truthy (Sidebar.initialsOf fullName)
     = negb (forallChars (fun c => Ascii.eqb c " ") fullName).
Proof.
  split; [apply initialsOf_short | split; [apply initialsOf_short |]].
  apply initialsOf_truthy.
Qed.

Example initialsOf_examples :
  Sidebar.initialsOf "asha rao" = "AR"
  /\ Sidebar.initialsOf "Mary  ann  o'neil" = "MA"
  /\ Sidebar.initialsOf " lee" = "L"
  /\ Sidebar.initialsOf "   " = "".
Proof. repeat split. Qed.

(** X5.  The mount effect of the sidebar ends normally and does nothing
    outside the component.  After it the sidebar shows the name stored
    under full_name when there is one and it is not empty, with the
    initials computed from that name, and the default name User with the
    initial U otherwise.  So the name shown is never empty, and the
    initials have at most two characters and no lower-case letter; they
    are empty exactly when the stored name is not empty and consists of
    spaces only. *)
Theorem loadProfile_shows (env : Env) :
  let r := Sidebar.loadProfile env Sidebar.initialProfile in
  let stored := getItem "full_name" (localStorage env) in
  outcome r = Normal tt
  /\ log r = []
  /\ Sidebar.userName (state r) = orElse stored "User"
  /\ Sidebar.userInitials (state r)
     = match stored with
       | Some fullName => if truthy fullName then Sidebar.initialsOf fullName else "U"
       | None => "U"
       end
  /\ truthy (Sidebar.userName (state r)) = true
  /\ String.length (Sidebar.userInitials (state r)) <= 2
  /\ noLowerCase (Sidebar.userInitials (state r)) = true
  /\ truthy (Sidebar.userInitials (state r))
     = match stored with
       | Some fullName =>
           negb (truthy fullName && forallChars (fun c => Ascii.eqb c " ") fullName)
       | None => true
       end.
Proof.
  unfold Sidebar.loadProfile, orElse.
  destruct (getItem "full_name" (localStorage env)) as [fullName |];
    [destruct (truthy fullName) eqn:Hname |]; simpl;
    repeat split; auto; try apply initialsOf_short.
  apply initialsOf_truthy.
Qed.

(** ** Forms: typing *)

Lemma assign_one (name value : string) (fd : FormFields) :
  oneFieldSet name value fd (assign [(name, value)] fd).
Proof.
  unfold oneFieldSet, assign, prop. simpl. split.
  - now rewrite lookup_insert_eq.
  - intros k Hk. now rewrite lookup_insert_ne.
Qed.

(** X6.  In each of the five section components, [handleChange] sets the named
    field of the form state to the value and changes nothing else: every
    other field, the list, the flags and the tab are as before, and nothing
    happens outside the component. *)
Theorem handleChange_sets_one_field (name value : string) :
  (forall st, let r := MedicationTracker.handleChange name value st in
      log r = []
      /\ oneFieldSet name value (MedicationTracker.formData st)
                     (MedicationTracker.formData (state r))
      /\ MedicationTracker.setFormData (fun _ => MedicationTracker.formData st) (state r)
         = st)
  /\ (forall st, let r := AppointmentScheduler.handleChange name value st in
      log r = []
      /\ oneFieldSet name value (AppointmentScheduler.formData st)
                     (AppointmentScheduler.formData (state r))
      /\ AppointmentScheduler.setFormData
           (fun _ => AppointmentScheduler.formData st) (state r) = st)
  /\ (forall st, let r := MedicalReports.handleChange name value st in
      log r = []
      /\ oneFieldSet name value (MedicalReports.formData st)
                     (MedicalReports.formData (state r))
      /\ MedicalReports.setFormData (fun _ => MedicalReports.formData st) (state r)
         = st)
  /\ (forall st, let r := WomensHealth.handleChange name value st in
      log r = []
      /\ oneFieldSet name value (WomensHealth.formData st)
                     (WomensHealth.formData (state r))
      /\ WomensHealth.setFormData (fun _ => WomensHealth.formData st) (state r) = st)
  /\ (forall st, let r := LifestyleLogger.handleChange name value st in
      log r = []
      /\ oneFieldSet name value (LifestyleLogger.formData st)
                     (LifestyleLogger.formData (state r))
      /\ LifestyleLogger.setFormData (fun _ => LifestyleLogger.formData st) (state r)
         = st).
Proof.
  repeat apply conj; intros [];
    (split; [reflexivity | split; [apply assign_one | reflexivity]]).
Qed.

Lemma filter_absent_key (l : list (string * string)) (name : string) :
  name ∉ l.*1 ->
  List.filter (fun kv : string * JsonVal => String.eqb kv.1 name)
              ((fun kv => (kv.1, JStr kv.2)) <$> l) = [].
Proof.
  induction l as [| [k x] l IH]; [reflexivity |]. simpl. intros Hname.
  apply not_elem_of_cons in Hname as [Hk Hl].
  destruct (String.eqb_spec k name); [congruence | now apply IH].
Qed.

Lemma filter_present_key (l : list (string * string)) (name v : string) :
  NoDup l.*1 -> (name, v) ∈ l ->
  List.filter (fun kv : string * JsonVal => String.eqb kv.1 name)
              ((fun kv => (kv.1, JStr kv.2)) <$> l) = [(name, JStr v)].
Proof.
  induction l as [| [k x] l IH]; simpl; intros Hnd Hin.
  - now apply elem_of_nil in Hin.
  - apply NoDup_cons in Hnd as [Hk Hnd].
    apply elem_of_cons in Hin as [Heq | Hin].
    + injection Heq as <- <-. rewrite String.eqb_refl. f_equal.
      now apply filter_absent_key.
    + destruct (String.eqb_spec k name) as [-> | Hne]; [| now apply IH].
      exfalso. apply Hk. apply list_elem_of_fmap. now exists (name, v).
Qed.

Lemma stringify_field (name value : string) (fd : FormFields) :
  List.filter (fun kv => String.eqb kv.1 name)
              (jsonFields (stringify (assign [(name, value)] fd)))
  = [(name, JStr value)].
Proof.
  unfold stringify, assign. simpl. apply filter_present_key.
  - apply NoDup_fst_map_to_list.
  - apply elem_of_map_to_list, lookup_insert_eq.
Qed.

(** X7.  What is typed is what is sent: when a field of the medication form, or
    of the appointment form, is set and the form is then submitted, the
    JSON body of the request has that field with that value, once. *)
Theorem typed_value_is_sent (name value : string) (env : Env) :
  (forall st req resume,
      In (Fetch req resume)
         (log (MedicationTracker.handleAddMedication env
                 (state (MedicationTracker.handleChange name value st)))) ->
      List.filter (fun kv => String.eqb kv.1 name) (jsonFields (Request.body req))
      = [(name, JStr value)])
  /\ (forall st req resume,
      In (Fetch req resume)
         (log (AppointmentScheduler.handleScheduleAppointment env
                 (state (AppointmentScheduler.handleChange name value st)))) ->
      List.filter (fun kv => String.eqb kv.1 name) (jsonFields (Request.body req))
      = [(name, JStr value)]).
Proof.
  split; intros st req resume Hsent; run_in Hsent; split_truthy_in Hsent;
    single_effect Hsent; injection Hsent as <- _; apply stringify_field.
Qed.

Lemma typed_value_is_sent_witness :
  List.filter (fun kv => String.eqb kv.1 "notes")
    (jsonFields (Request.body
       (MedicationTracker.addRequest sampleEnv
          (MedicationTracker.formData
             (state (MedicationTracker.handleChange "notes" "with food"
                       sampleMedication))))))
  = [("notes", JStr "with food")].
Proof.
  apply (proj1 (typed_value_is_sent "notes" "with food" sampleEnv) sampleMedication _
           (MedicationTracker.handleAddMedication_reply [])).
  left. reflexivity.
Defined.

(** ** MedicationTracker: logging a dose *)

(** X8.  Logging a dose sends one request that names the medication and changes
    nothing in the component, and whatever the reply is, the code run on it
    leaves the state as it finds it, registers nothing and ends normally:
    the list and its doses are not updated locally. *)
Theorem handleLogDose_leaves_state (medicationId : string) (env : Env)
    (st : MedicationTracker.State) :
  let r := MedicationTracker.handleLogDose (Some medicationId) env st in
  state r = st
  /\ (exists req, log r = [Fetch req MedicationTracker.handleLogDose_reply]
                  /\ Request.url req = "http://localhost:5000/api/medication/log-dose"
                  /\ In ("medication_id", JStr medicationId)
                        (jsonFields (Request.body req)))
  /\ forall env' result cur,
       let r' := MedicationTracker.handleLogDose_reply env' result cur in
       state r' = cur /\ outcome r' = Normal tt
       /\ List.filter isCallback (log r') = [].
Proof.
  repeat split.
  - eexists. repeat split. left. reflexivity.
  - destruct result as [m | data]; run_reply; [| destruct (ApiData.success data)];
      reflexivity.
  - destruct result as [m | data]; run_reply; [| destruct (ApiData.success data)];
      reflexivity.
  - destruct result as [m | data]; run_reply; [| destruct (ApiData.success data)];
      reflexivity.
Qed.

(** ** MedicalReports: deleting a report *)

Lemma differentId_spec (reportId : option string) (r : Item) :
  MedicalReports.differentId reportId r = true <-> field "id" r <> reportId.
Proof.
  unfold MedicalReports.differentId. rewrite negb_true_iff, bool_decide_eq_false.
  reflexivity.
Qed.

(** X9.  Deleting a report: when the user declines the confirmation nothing
    happens at all; when the user confirms, one DELETE request leaves and
    the state stays as it is until the reply.  On a reply with a truthy
    [success] the list becomes the list of the render that started the
    deletion without the reports of that id, the other reports in their
    order; the form, the selected file and the tab are not touched. *)
Theorem handleDeleteReport_removes (reportId : option string) (env env' : Env)
    (st cur : MedicalReports.State) (data : ApiData.t) :
  ApiData.success data = true ->
  MedicalReports.handleDeleteReport false reportId env st = mkRun (Normal tt) st []
  /\ MedicalReports.handleDeleteReport true reportId env st
     = mkRun (Normal tt) st
         [Fetch (MedicalReports.deleteRequest env reportId)
                (MedicalReports.handleDeleteReport_reply (MedicalReports.reports st)
                                                         reportId)]
  /\ Request.method (MedicalReports.deleteRequest env reportId) = DELETE
  /\ let r := MedicalReports.handleDeleteReport_reply (MedicalReports.reports st)
                reportId env' (Resolves data) cur in
     MedicalReports.reports (state r)
     = List.filter (fun x => negb (bool_decide (field "id" x = reportId)))
                   (MedicalReports.reports st)
     /\ Forall (fun x => field "id" x <> reportId) (MedicalReports.reports (state r))
     /\ MedicalReports.setReports (MedicalReports.reports cur) (state r) = cur
     /\ log r = [ToastSuccess "Report deleted successfully"].
Proof.
  intros Hok. repeat split.
  - run_reply. now rewrite Hok.
  - run_reply. rewrite Hok. simpl. apply List.Forall_forall. intros x Hx.
    apply filter_In in Hx as [_ Hx]. now apply differentId_spec.
  - run_reply. rewrite Hok. now destruct cur.
  - run_reply. now rewrite Hok.
Qed.

Lemma handleDeleteReport_removes_witness :
  let r := MedicalReports.handleDeleteReport_reply sampleReports (Some "1") sampleEnv
             (Resolves sampleData) MedicalReports.initial in
  MedicalReports.reports (state r)
  = [[("id", "2"); ("name", "X-ray")]; [("name", "Unnumbered")]].
Proof.
  pose proof (handleDeleteReport_removes (Some "1") sampleEnv sampleEnv
                (MedicalReports.setReports sampleReports MedicalReports.initial)
                MedicalReports.initial sampleData eq_refl) as (_ & _ & _ & H & _).
  exact H.
Defined.

(** ** Forms: after the reply *)

(** X10.  When the reply to a submission is a failure, the state after it is the
    state before it with the flag of the submit button cleared: what the
    user typed, the selected file, the lists, the tab and, in the login
    form, local storage are all as they were. *)
Theorem failed_submission_keeps_input (f : Form) (closure cur : formState f)
    (env : Env) (result : FetchResult) :
  isFailure result = true ->
  state (onReply (Submission f) closure env result cur) = setBusy f false cur.
Proof.
  intros Hf. destruct f; on_failure result Hf; run_reply; rewrite ?Heqb; monad;
    reflexivity.
Qed.

Lemma failed_submission_keeps_input_witness :
  state (onReply (Submission AddMedication) sampleMedication sampleEnv
                 (Rejects "Failed to fetch") sampleMedication)
  = sampleMedication.
Proof.
  apply (failed_submission_keeps_input AddMedication sampleMedication sampleMedication
           sampleEnv (Rejects "Failed to fetch")).
  reflexivity.
Defined.

(** X11.  After a successful reply, submitting again without typing sends
    nothing: for every form but the activity form and the login forms the
    reply empties a required field, so the next submission stops at the
    validation with one error notification, whatever was typed while the
    request was in flight. *)
Theorem resubmission_needs_new_input (f : Form) (closure cur : formState f)
    (env env' : Env) (data : ApiData.t) :
  resetsRequired f = true ->
  ApiData.success data = true ->
  let after := state (onReply (Submission f) closure env (Resolves data) cur) in
  exists msg, log (submit f env' after) = [ToastError msg].
Proof.
  intros Hf Hok.
  destruct f; try discriminate Hf; run_reply; rewrite Hok; monad; eauto.
  all: unfold prop; repeat (rewrite lookup_insert_ne by discriminate);
    rewrite lookup_insert_eq; simpl; eauto.
Qed.

Lemma resubmission_needs_new_input_witness :
  exists msg,
    log (submit AddMedication sampleEnv
           (state (onReply (Submission AddMedication) sampleMedication sampleEnv
                           (Resolves sampleData) sampleMedication)))
    = [ToastError msg].
Proof.
  apply (resubmission_needs_new_input AddMedication sampleMedication sampleMedication
           sampleEnv sampleEnv sampleData); reflexivity.
Defined.

(** X12.  No submit handler looks at the flag that disables its button: with the
    flag set or cleared the handler issues the same requests, so a form
    submitted twice before the first reply is sent twice. *)
Theorem submit_ignores_busy (f : Form) (env : Env) (st : formState f) (b : bool) :
  requests (log (submit f env (setBusy f b st))) = requests (log (submit f env st)).
Proof.
  destruct f; destruct st; run; repeat (cases; monad); reflexivity.
Qed.

Ltac read_fields :=
  unfold prop; repeat (rewrite lookup_insert_ne by discriminate);
  rewrite ?lookup_insert_eq; try reflexivity.

(** ** WomensHealth and LifestyleLogger: forms that share one form state *)

(** X13.  The period form and the symptom form share one form-state object, and
    so do the activity form and the meal form.  A successful reply resets
    the fields of its own form only, with one exception: the notes are one
    field for both forms of the women's health section, so a logged period
    also clears notes typed for a symptom and a logged symptom clears notes
    typed for a period. *)
Theorem shared_form_reset (env : Env) (data : ApiData.t) :
  ApiData.success data = true ->
  (forall cur,
      let before := WomensHealth.formData cur in
      let after := WomensHealth.formData
                     (state (WomensHealth.handleLogPeriod_reply env (Resolves data) cur)) in
      prop "start_date" after = "" /\ prop "end_date" after = ""
      /\ prop "flow" after = "medium" /\ prop "notes" after = ""
      /\ prop "symptom_type" after = prop "symptom_type" before
      /\ prop "symptom_severity" after = prop "symptom_severity" before)
  /\ (forall cur,
      let before := WomensHealth.formData cur in
      let after := WomensHealth.formData
                     (state (WomensHealth.handleLogSymptom_reply env (Resolves data) cur)) in
      prop "symptom_type" after = "" /\ prop "symptom_severity" after = "5"
      /\ prop "notes" after = ""
      /\ prop "start_date" after = prop "start_date" before
      /\ prop "end_date" after = prop "end_date" before
      /\ prop "flow" after = prop "flow" before)
  /\ (forall cur,
      let before := LifestyleLogger.formData cur in
      let after := LifestyleLogger.formData
                     (state (LifestyleLogger.handleSubmitLifestyle_reply env
                               (Resolves data) cur)) in
      prop "water_intake_ml" after = "" /\ prop "steps" after = ""
      /\ prop "sleep_hours" after = "" /\ prop "exercise_minutes" after = ""
      /\ prop "meal_type" after = prop "meal_type" before
      /\ prop "description" after = prop "description" before
      /\ prop "calories" after = prop "calories" before)
  /\ (forall cur,
      let before := LifestyleLogger.formData cur in
      let after := LifestyleLogger.formData
                     (state (LifestyleLogger.handleSubmitMeal_reply env
                               (Resolves data) cur)) in
      prop "meal_type" after = "" /\ prop "description" after = ""
      /\ prop "calories" after = ""
      /\ prop "water_intake_ml" after = prop "water_intake_ml" before
      /\ prop "steps" after = prop "steps" before
      /\ prop "sleep_hours" after = prop "sleep_hours" before
      /\ prop "exercise_minutes" after = prop "exercise_minutes" before).
Proof.
  intros Hok.
  repeat apply conj; intros cur; run_reply; rewrite Hok; monad;
    unfold assign; simpl; repeat apply conj; read_fields.
Qed.

Lemma shared_form_reset_witness :
  let typed := WomensHealth.setFormData
                 (assign [("start_date", "2024-05-01"); ("notes", "cramps");
                          ("symptom_type", "headache")])
                 WomensHealth.initial in
  let after := WomensHealth.formData
                 (state (WomensHealth.handleLogPeriod_reply sampleEnv
                           (Resolves sampleData) typed)) in
  prop "notes" after = "" /\ prop "symptom_type" after = "headache".
Proof.
  pose proof (proj1 (shared_form_reset sampleEnv sampleData eq_refl)
                (WomensHealth.setFormData
                   (assign [("start_date", "2024-05-01"); ("notes", "cramps");
                            ("symptom_type", "headache")])
                   WomensHealth.initial)) as (_ & _ & _ & H1 & H2 & _).
  exact (conj H1 H2).
Defined.

(** ** LoginForm: the session *)

Lemma storeSession_lookup (data : ApiData.t) (store : LocalStorage) :
  let after := setItem "full_name" (ApiData.full_name data)
                 (setItem "email" (ApiData.email data)
                    (setItem "user_id" (ApiData.user_id data)
                       (setItem "token" (ApiData.token data) store))) in
  getItem "token" after = Some (ApiData.token data)
  /\ getItem "user_id" after = Some (ApiData.user_id data)
  /\ getItem "email" after = Some (ApiData.email data)
  /\ getItem "full_name" after = Some (ApiData.full_name data)
  /\ forall k, k ∉ Sidebar.sessionKeys -> getItem k after = getItem k store.
Proof.
  unfold getItem, setItem, Sidebar.sessionKeys. simpl.
  repeat split; try (by simplify_map_eq).
  intros k Hk. repeat rewrite not_elem_of_cons in Hk.
  destruct Hk as (H1 & H2 & H3 & H4 & _).
  now rewrite !lookup_insert_ne by congruence.
Qed.

(** X14.  A successful reply to the login request (and to the sign-up request)
    stores the four session values of the reply in local storage under the
    keys token, user_id, email and full_name, leaves every other key alone,
    shows one success notification, clears the loading flag, and sets one
    timer of 1500 ms whose only action is the navigation to /dashboard. *)
Theorem login_stores_session (env : Env) (data : ApiData.t) (cur : LoginForm.State) :
  ApiData.success data = true ->
  let r := LoginForm.handleLogin_reply env (Resolves data) cur in
  let store := LoginForm.storage (state r) in
  getItem "token" store = Some (ApiData.token data)
  /\ getItem "user_id" store = Some (ApiData.user_id data)
  /\ getItem "email" store = Some (ApiData.email data)
  /\ getItem "full_name" store = Some (ApiData.full_name data)
  /\ (forall k, k ∉ Sidebar.sessionKeys -> getItem k store = getItem k (LoginForm.storage cur))
  /\ LoginForm.loading (state r) = false
  /\ (exists callback,
        log r = [ToastSuccess "Login successful! Redirecting..."; SetTimeout 1500 callback]
        /\ forall env' s, callback env' s = mkRun (Normal tt) s [Navigate "/dashboard" false])
  /\ LoginForm.storage (state (LoginForm.handleSignUp_reply env (Resolves data) cur))
     = store.
Proof.
  intros Hok. run_reply. rewrite Hok. monad.
  pose proof (storeSession_lookup data (LoginForm.storage cur)) as (H1 & H2 & H3 & H4 & H5).
  repeat split; auto.
  eexists. split; reflexivity.
Qed.

Lemma handleLogin_reply_storage (env : Env) (data : ApiData.t) (cur : LoginForm.State) :
  ApiData.success data = true ->
  let store := LoginForm.storage (state (LoginForm.handleLogin_reply env (Resolves data) cur)) in
  getItem "token" store = Some (ApiData.token data)
  /\ getItem "full_name" store = Some (ApiData.full_name data).
Proof.
  intros Hok. run_reply. rewrite Hok. monad.
  pose proof (storeSession_lookup data (LoginForm.storage cur)) as (H1 & _ & _ & H4 & _).
  split; assumption.
Qed.

Lemma login_stores_session_witness :
  LoginForm.storage
    (state (LoginForm.handleLogin_reply sampleEnv (Resolves sampleLogin)
              (LoginForm.initial ∅)))
  !! "user_id" = Some "42".
Proof.
  pose proof (login_stores_session sampleEnv sampleLogin (LoginForm.initial ∅) eq_refl)
    as (_ & H & _).
  exact H.
Defined.

(** X15.  Login, then the dashboard: with the local storage a successful login
    leaves, every request the medication tracker, the appointment
    scheduler, the medical reports, the women's health section, the
    lifestyle logger and the AI assistant issue from their handlers carries
    the token of the login reply, and the sidebar and the dashboard show
    the full name of the reply when it is not empty. *)
Theorem session_reaches_dashboard (env0 env : Env) (data : ApiData.t)
    (cur : LoginForm.State) :
  ApiData.success data = true ->
  localStorage env
  = LoginForm.storage (state (LoginForm.handleLogin_reply env0 (Resolves data) cur)) ->
  let carries (S : Type) (e : Effect S) :=
    match e with
    | Fetch req _ =>
        Request.header "Authorization" req = Some ("Bearer " +:+ ApiData.token data)
    | _ => True
    end in
  (forall ev s, Forall (carries _) (log (MedicationTracker.handle ev env s)))
  /\ (forall ev s, Forall (carries _) (log (AppointmentScheduler.handle ev env s)))
  /\ (forall ev s, Forall (carries _) (log (MedicalReports.handle ev env s)))
  /\ (forall ev s, Forall (carries _) (log (WomensHealth.handle ev env s)))
  /\ (forall ev s, Forall (carries _) (log (LifestyleLogger.handle ev env s)))
  /\ (forall ev s, Forall (carries _) (log (AIDoctorAssistant.handle ev env s)))
  /\ (truthy (ApiData.full_name data) = true ->
      Sidebar.userName (state (Sidebar.loadProfile env Sidebar.initialProfile))
      = ApiData.full_name data
      /\ state (Dashboard.loadName env Dashboard.initial) = ApiData.full_name data).
Proof.
  intros Hok Hstore carries.
  destruct (handleLogin_reply_storage env0 data cur Hok) as (Htoken & Hname).
  rewrite <- Hstore in Htoken, Hname.
  assert (Hcarries : forall S (l : list (Effect S)),
             Forall (fun e => match e with
                              | Fetch req _ => carriesToken env req /\ True
                              | SetTimeout _ _ => True
                              | _ => True
                              end) l -> Forall (carries S) l).
  { intros S l Hl. eapply Forall_impl; [exact Hl |].
    intros [req k | | | | |]; simpl; auto.
    unfold carriesToken. rewrite Htoken. tauto. }
  repeat split; try (intros ev s; apply Hcarries).
  - apply (authorized_MedicationTracker 0 ev env s).
  - apply (authorized_AppointmentScheduler 0 ev env s).
  - apply (authorized_MedicalReports 0 ev env s).
  - apply (authorized_WomensHealth 0 ev env s).
  - apply (authorized_LifestyleLogger 0 ev env s).
  - apply (authorized_AIDoctorAssistant 0 ev env s).
  - unfold Sidebar.loadProfile. rewrite Hname, H. reflexivity.
  - unfold Dashboard.loadName. rewrite Hname, H. reflexivity.
Qed.

Lemma session_reaches_dashboard_witness :
  Forall (fun e => match e with
                   | Fetch req _ => Request.header "Authorization" req = Some "Bearer tok"
                   | _ => True
                   end)
         (log (MedicationTracker.handle MedicationTracker.Mount dashboardEnv
                 MedicationTracker.initial))
  /\ Sidebar.userName (state (Sidebar.loadProfile dashboardEnv Sidebar.initialProfile))
     = "Asha Rao"
  /\ state (Dashboard.loadName dashboardEnv Dashboard.initial) = "Asha Rao".
Proof.
  pose proof (session_reaches_dashboard sampleEnv dashboardEnv sampleLogin
                (LoginForm.initial ∅) eq_refl eq_refl) as (H & _ & _ & _ & _ & _ & Hname).
  split; [exact (H MedicationTracker.Mount MedicationTracker.initial) | exact (Hname eq_refl)].
Defined.

(** X16.  Switching between sign-in and sign-up empties the form, so a
    submission right after the switch sends no request: it shows the one
    error notification of the mode switched to and leaves the loading flag
    cleared.  This holds for both versions of the form. *)
Theorem submit_after_toggle_sends_nothing (env : Env) (st : LoginForm.State) :
  let message :=
    if LoginForm.isSignUp st then "Please enter email and password"
    else "Please fill in all fields" in
  let r := LoginForm.handleSubmit env (state (LoginForm.toggle st)) in
  let r' := LoginForm.handleSubmit_terms env (state (LoginForm.toggle_terms st)) in
  (log r = [ToastError message] /\ LoginForm.loading (state r) = false)
  /\ (log r' = [ToastError message] /\ LoginForm.loading (state r') = false).
Proof.
  destruct st as [e p c f a g t [] l store];
    (split; split; unfold LoginForm.handleSubmit, LoginForm.handleSubmit_terms; run;
     reflexivity).
Qed.

(** ** White space *)

Lemma truthy_trimStart (s : string) :
  truthy (trimStart s) = negb (forallChars isWhiteSpace s).
Proof.
  induction s as [| c r IH]; [reflexivity |].
  simpl. destruct (isWhiteSpace c); [exact IH | reflexivity].
Qed.

Lemma forallChars_trimStart (s : string) :
  forallChars isWhiteSpace (trimStart s) = forallChars isWhiteSpace s.
Proof.
  induction s as [| c r IH]; [reflexivity |].
  simpl. destruct (isWhiteSpace c) eqn:Hc; [exact IH |].
  simpl. now rewrite Hc.
Qed.

Lemma forallChars_rev_app (p : ascii -> bool) (s acc : string) :
  forallChars p (String.rev_app s acc) = forallChars p s && forallChars p acc.
Proof.
  revert acc. induction s as [| c r IH]; intros acc; [reflexivity |].
  simpl. rewrite IH. simpl.
  destruct (p c), (forallChars p r), (forallChars p acc); reflexivity.
Qed.

Lemma forallChars_rev (p : ascii -> bool) (s : string) :
  forallChars p (String.rev s) = forallChars p s.
Proof. unfold String.rev. rewrite forallChars_rev_app. apply andb_true_r. Qed.

Lemma truthy_rev_app (s acc : string) :
  truthy (String.rev_app s acc) = truthy s || truthy acc.
Proof.
  revert acc. induction s as [| c r IH]; intros acc; [reflexivity |].
  simpl. rewrite IH. apply orb_true_r.
Qed.

Lemma truthy_rev (s : string) : truthy (String.rev s) = truthy s.
Proof. unfold String.rev. rewrite truthy_rev_app. apply orb_false_r. Qed.

(** [s.trim()] is the empty string exactly when [s] is blank. *)
Lemma truthy_trim_blank (s : string) :
  truthy (trim s) = negb (forallChars isWhiteSpace s).
Proof.
  unfold trim.
  now rewrite truthy_rev, truthy_trimStart, forallChars_rev, forallChars_trimStart.
Qed.

#[local] Arguments trim : simpl never.

Lemma handleSendMessage_cases (env : Env) (st : ChatArea.State) :
  ChatArea.handleSendMessage env st
  = if forallChars isWhiteSpace (ChatArea.inputValue st) then mkRun (Normal tt) st []
    else mkRun (Normal tt)
           (ChatArea.mkState
              (ChatArea.messages st
               ++ [ChatArea.mkMessage (length (ChatArea.messages st) + 1) ChatArea.user
                     (Some (ChatArea.inputValue st)) (localTime env)])
              "")
           [SetTimeout 1000 ChatArea.simulateReply].
Proof.
  unfold ChatArea.handleSendMessage. monad. rewrite truthy_trim_blank.
  destruct (forallChars isWhiteSpace (ChatArea.inputValue st)); reflexivity.
Qed.

(** X17.  An input that is empty or consists of white space only is not sent: the
    chat area does nothing at all, and the AI assistant shows one error
    notification and sends no request.  Any other input is sent as typed,
    not trimmed: the chat area appends it as one user message, empties the
    input and sets one reply timer; the AI assistant sets its loading flag
    and sends one request with the question as typed. *)
Theorem blank_input_is_not_sent (env : Env) :
  (forall st,
      ChatArea.handleSendMessage env st
      = if forallChars isWhiteSpace (ChatArea.inputValue st) then mkRun (Normal tt) st []
        else mkRun (Normal tt)
               (ChatArea.mkState
                  (ChatArea.messages st
                   ++ [ChatArea.mkMessage (length (ChatArea.messages st) + 1)
                         ChatArea.user (Some (ChatArea.inputValue st)) (localTime env)])
                  "")
               [SetTimeout 1000 ChatArea.simulateReply])
  /\ (forall st,
         AIDoctorAssistant.handleAskQuestion env st
         = if forallChars isWhiteSpace (AIDoctorAssistant.question st)
           then mkRun (Normal tt) st [ToastError "Please enter a question"]
           else mkRun (Normal tt) (AIDoctorAssistant.setLoading true st)
                  [Fetch (AIDoctorAssistant.consultRequest env
                            (AIDoctorAssistant.question st))
                         (AIDoctorAssistant.handleAskQuestion_reply
                            (AIDoctorAssistant.conversations st)
                            (AIDoctorAssistant.question st))]).
Proof.
  split; intros st; [apply handleSendMessage_cases |].
  unfold AIDoctorAssistant.handleAskQuestion. monad. rewrite truthy_trim_blank.
  destruct (forallChars isWhiteSpace (AIDoctorAssistant.question st)); reflexivity.
Qed.

(** ** ChatArea: numbering and replies *)

Lemma ids_snoc (l : list ChatArea.Message) (m : ChatArea.Message) :
  ChatArea.id <$> l = seq 1 (length l) ->
  ChatArea.id m = length l + 1 ->
  ChatArea.id <$> (l ++ [m]) = seq 1 (length (l ++ [m])).
Proof.
  intros Hl Hm. rewrite fmap_app, length_app, seq_app, Hl. simpl.
  rewrite Hm. do 2 f_equal. lia.
Qed.

Lemma chat_send_invariant (env : Env) (sys : Loop.Sys ChatArea.State) :
  chatInvariant sys ->
  chatInvariant (Loop.absorb (ChatArea.handleSendMessage env (Loop.comp sys))
                             (Loop.pending sys) (Loop.trace sys)).
Proof.
  intros (Hp & Hids & Hcount). rewrite handleSendMessage_cases.
  destruct (forallChars isWhiteSpace _); unfold chatInvariant, Loop.absorb; simpl.
  - rewrite app_nil_r. auto.
  - split; [apply Forall_snoc; auto | split; [apply ids_snoc; auto |]].
    rewrite !List.filter_app, !length_app. simpl. lia.
Qed.

Lemma chat_invariant (sys : Loop.Sys ChatArea.State) :
  Loop.reachable ChatArea.handle ChatArea.mounted sys -> chatInvariant sys.
Proof.
  intros Hreach. induction Hreach as [| sys sys' _ IH Hstep].
  - split; [constructor | split; reflexivity].
  - destruct Hstep as [sys ev env Henv | sys i req resume env result Henv Hi
                       | sys i ms callback env Henv Hi].
    + destruct ev as [value | | key]; simpl.
      * destruct IH as (Hp & Hids & Hcount).
        unfold chatInvariant, Loop.absorb; simpl. rewrite app_nil_r. auto.
      * now apply chat_send_invariant.
      * destruct (String.eqb key "Enter"); [now apply chat_send_invariant |].
        destruct IH as (Hp & Hids & Hcount).
        unfold chatInvariant, Loop.absorb; simpl. rewrite app_nil_r. auto.
    + destruct IH as (Hp & _). pose proof (Forall_lookup_1 _ _ _ _ Hp Hi) as H.
      discriminate H.
    + destruct IH as (Hp & Hids & Hcount).
      pose proof (Forall_lookup_1 _ _ _ _ Hp Hi) as H. injection H as _ <-.
      assert (Hlen : length (delete i (Loop.pending sys)) = length (Loop.pending sys) - 1)
        by (apply length_delete; eauto).
      assert (Hpos : 0 < length (Loop.pending sys))
        by (apply lookup_lt_Some in Hi; lia).
      unfold chatInvariant, Loop.absorb; simpl. rewrite app_nil_r.
      split; [now apply Forall_delete | split; [apply ids_snoc; auto |]].
      rewrite !List.filter_app, !length_app. simpl. lia.
Qed.

(** X18.  In every state the chat area can reach from its mount, the ids of the
    messages are 1, 2, 3, ... in the order shown, hence pairwise different
    (they are the keys of the rendered list); only reply timers wait; and
    every message sent has got its reply or has one timer waiting for it:
    the assistant's messages and the waiting timers together are one more,
    for the greeting, than the user's messages. *)
Theorem chat_messages_are_numbered (sys : Loop.Sys ChatArea.State) :
  Loop.reachable ChatArea.handle ChatArea.mounted sys ->
  chatInvariant sys
  /\ NoDup (ChatArea.id <$> ChatArea.messages (Loop.comp sys)).
Proof.
  intros Hreach. pose proof (chat_invariant sys Hreach) as Hinv.
  split; [exact Hinv |].
  destruct Hinv as (_ & -> & _). apply NoDup_seq.
Qed.

Lemma chat_messages_are_numbered_witness :
  ChatArea.id <$> ChatArea.messages (Loop.comp chatAnswered) = [1; 2; 3]
  /\ NoDup (ChatArea.id <$> ChatArea.messages (Loop.comp chatAnswered)).
Proof.
  destruct (chat_messages_are_numbered chatAnswered chatAnswered_reachable)
    as ((_ & Hids & _) & Hnodup).
  split; [exact Hids | exact Hnodup].
Defined.

(** ** MedicationTracker: the loading flag *)

Lemma Exists_delete_other {A} (P : A -> Prop) (l : list A) (i : nat) (y : A) :
  Exists P l -> l !! i = Some y -> ~ P y -> Exists P (delete i l).
Proof.
  intros HE. revert i.
  induction HE as [x l Hx | x l HE IH]; intros [| i] Hi Hn; simpl in *.
  - injection Hi as ->. contradiction.
  - now apply List.Exists_cons_hd.
  - exact HE.
  - apply List.Exists_cons_tl. now apply IH.
Qed.

(** The reply handler of a submission differs from the two others: it
    alone clears the loading flag. *)
Lemma add_reply_clears_loading (medications : list Item) (env : Env)
    (result : FetchResult) (st : MedicationTracker.State) :
  MedicationTracker.loading
    (state (MedicationTracker.handleAddMedication_reply medications env result st))
  = false.
Proof.
  run_reply. destruct result as [m | data]; monad;
    [| destruct (ApiData.success data); monad]; reflexivity.
Qed.

Lemma other_reply_keeps_loading
    (resume : Env -> FetchResult -> Handler MedicationTracker.State unit)
    (env : Env) (result : FetchResult) (st : MedicationTracker.State) :
  resume = MedicationTracker.fetchMedications_reply
  \/ resume = MedicationTracker.handleLogDose_reply ->
  MedicationTracker.loading (state (resume env result st)) = MedicationTracker.loading st
  /\ List.filter isCallback (log (resume env result st)) = [].
Proof.
  intros [-> | ->]; run_reply; destruct result as [m | data]; monad;
    try (destruct (ApiData.success data); monad); split; reflexivity.
Qed.

Lemma other_reply_is_not_add (req : Request.t)
    (resume : Env -> FetchResult -> Handler MedicationTracker.State unit) :
  resume = MedicationTracker.fetchMedications_reply
  \/ resume = MedicationTracker.handleLogDose_reply ->
  ~ isAddReply (Fetch req resume).
Proof.
  intros Hother (req' & medications & Heq). injection Heq as _ Hresume.
  pose (st := MedicationTracker.setLoading true MedicationTracker.initial).
  destruct (other_reply_keeps_loading resume sampleEnv (Rejects "") st Hother) as (Hkeep & _).
  rewrite Hresume, add_reply_clears_loading in Hkeep. discriminate Hkeep.
Qed.

Lemma busy_invariant (sys : Loop.Sys MedicationTracker.State) :
  Loop.reachable MedicationTracker.handle mountedMedication sys -> busyInvariant sys.
Proof.
  intros Hreach. induction Hreach as [| sys sys' _ IH Hstep].
  - split; [constructor | discriminate].
  - destruct IH as (Hk & Hbusy).
    assert (Hquiet : forall st' trace',
               MedicationTracker.loading st' = MedicationTracker.loading (Loop.comp sys) ->
               busyInvariant (Loop.mk st' (Loop.pending sys ++ []) trace')).
    { intros st' trace' Hl. unfold busyInvariant; simpl. rewrite app_nil_r, Hl. auto. }
    assert (Hmore : forall st' trace' req resume,
               MedicationTracker.loading st' = MedicationTracker.loading (Loop.comp sys) ->
               resume = MedicationTracker.fetchMedications_reply
               \/ resume = MedicationTracker.handleLogDose_reply ->
               busyInvariant (Loop.mk st' (Loop.pending sys ++ [Fetch req resume]) trace')).
    { intros st' trace' req resume Hl Hresume. unfold busyInvariant; simpl. rewrite Hl.
      split.
      - apply Forall_snoc; [exact Hk |]. right.
        destruct Hresume as [-> | ->]; [left | right]; eexists; reflexivity.
      - intros H. apply List.Exists_app. left. auto. }
    destruct Hstep as [sys ev env Henv | sys i req resume env result Henv Hi
                       | sys i ms callback env Henv Hi].
    + destruct ev as [| name value | | medicationId | []];
        unfold Loop.absorb; run.
      * apply Hmore; auto.
      * apply Hquiet; auto.
      * destruct (_ || _); monad; [apply Hquiet; auto |].
        unfold busyInvariant; simpl. split.
        -- apply Forall_snoc; [exact Hk |]. left. do 2 eexists. reflexivity.
        -- intros _. apply List.Exists_app. right. apply List.Exists_cons_hd.
           do 2 eexists. reflexivity.
      * apply Hmore; auto.
      * apply Hquiet; auto.
      * apply Hmore; auto.
    + pose proof (Forall_lookup_1 _ _ _ _ Hk Hi) as Hcb.
      unfold busyInvariant, Loop.absorb; simpl.
      destruct Hcb as [(req' & medications & Heq) | Hcb].
      * injection Heq as _ ->. rewrite add_reply_clears_loading.
        split; [| discriminate].
        apply Forall_app. split; [now apply Forall_delete |].
        run_reply. destruct result as [m | data]; monad;
          [| destruct (ApiData.success data); monad]; constructor.
      * assert (Hother : resume = MedicationTracker.fetchMedications_reply
                         \/ resume = MedicationTracker.handleLogDose_reply).
        { destruct Hcb as [(req' & Heq) | (req' & Heq)]; injection Heq as _ ->; auto. }
        destruct (other_reply_keeps_loading resume env result (Loop.comp sys) Hother)
          as (-> & ->).
        rewrite app_nil_r. split; [now apply Forall_delete |].
        intros H. eapply Exists_delete_other; eauto.
        now apply other_reply_is_not_add.
    + pose proof (Forall_lookup_1 _ _ _ _ Hk Hi) as Hcb.
      destruct Hcb as [(req' & medications & Heq) | [(req' & Heq) | (req' & Heq)]];
        discriminate Heq.
Qed.

(** X19.  In every state the medication tracker can reach from its mount,
    whenever the loading flag is set (the submit button disabled and
    reading Adding...), the reply to an add-medication request is still
    awaited; and that reply, whatever it is, clears the flag.  So the
    button is never left disabled with nothing in flight. *)
Theorem loading_means_reply_awaited (sys : Loop.Sys MedicationTracker.State) :
  Loop.reachable MedicationTracker.handle mountedMedication sys ->
  MedicationTracker.loading (Loop.comp sys) = true ->
  Exists isAddReply (Loop.pending sys)
  /\ forall medications env result st,
       MedicationTracker.loading
         (state (MedicationTracker.handleAddMedication_reply medications env result st))
       = false.
Proof.
  intros Hreach Hloading. destruct (busy_invariant sys Hreach) as (_ & Hbusy).
  split; [now apply Hbusy |].
  intros medications env result st. apply add_reply_clears_loading.
Qed.

Lemma medicationSubmitted_reachable :
  Loop.reachable MedicationTracker.handle mountedMedication medicationSubmitted.
Proof.
  unfold medicationSubmitted.
  repeat (eapply Loop.reach_step;
          [| apply Loop.step_event; exact validEnv_sample]).
  apply Loop.reach_init.
Defined.

Lemma loading_means_reply_awaited_witness :
  MedicationTracker.loading (Loop.comp medicationSubmitted) = true
  /\ Exists isAddReply (Loop.pending medicationSubmitted).
Proof.
  split; [reflexivity |].
  apply (loading_means_reply_awaited medicationSubmitted medicationSubmitted_reachable
           eq_refl).
Defined.

(** ** Sidebar and Dashboard: after logout *)

(** X20.  After the logout handler ran, whatever the local storage held: the
    sidebar and the dashboard mounted next keep the default name User and
    the initial U, and every request the handlers of the six section
    components would still issue carries Bearer null in place of a token. *)
Theorem logout_ends_session (store : LocalStorage) (iso time : string) (rnd : Q) :
  let env := mkEnv (state (Sidebar.handleLogout store)) iso time rnd in
  let anonymous (S : Type) (e : Effect S) :=
    match e with
    | Fetch req _ => Request.header "Authorization" req = Some "Bearer null"
    | _ => True
    end in
  state (Sidebar.loadProfile env Sidebar.initialProfile) = Sidebar.mkProfile "User" "U"
  /\ state (Dashboard.loadName env Dashboard.initial) = "User"
  /\ (forall ev s, Forall (anonymous _) (log (MedicationTracker.handle ev env s)))
  /\ (forall ev s, Forall (anonymous _) (log (AppointmentScheduler.handle ev env s)))
  /\ (forall ev s, Forall (anonymous _) (log (MedicalReports.handle ev env s)))
  /\ (forall ev s, Forall (anonymous _) (log (WomensHealth.handle ev env s)))
  /\ (forall ev s, Forall (anonymous _) (log (LifestyleLogger.handle ev env s)))
  /\ (forall ev s, Forall (anonymous _) (log (AIDoctorAssistant.handle ev env s))).
Proof.
  intros env anonymous.
  assert (Htoken : getItem "token" (localStorage env) = None)
    by apply (handleLogout_spec store).
  assert (Hname : getItem "full_name" (localStorage env) = None)
    by apply (handleLogout_spec store).
  clearbody env.
  assert (Hanonymous : forall S (l : list (Effect S)),
             Forall (fun e => match e with
                              | Fetch req _ => carriesToken env req /\ True
                              | SetTimeout _ _ => True
                              | _ => True
                              end) l -> Forall (anonymous S) l).
  { intros S l Hl. eapply Forall_impl; [exact Hl |].
    intros [req k | | | | |]; simpl; auto.
    unfold carriesToken. rewrite Htoken. tauto. }
  split; [| split].
  - unfold Sidebar.loadProfile. now rewrite Hname.
  - unfold Dashboard.loadName. now rewrite Hname.
  - repeat split; intros ev s; apply Hanonymous.
    + apply (authorized_MedicationTracker 0 ev env s).
    + apply (authorized_AppointmentScheduler 0 ev env s).
    + apply (authorized_MedicalReports 0 ev env s).
    + apply (authorized_WomensHealth 0 ev env s).
    + apply (authorized_LifestyleLogger 0 ev env s).
    + apply (authorized_AIDoctorAssistant 0 ev env s).
Qed.

(** ** MedicalReports: choosing a file *)

(** X21.  Each choice in the file picker replaces the one before: the selected
    file and the error message after [handleFileSelect] depend only on the
    first file chosen, not on what was selected or shown before, nor on
    further files; a cancelled picker (no file) clears both; a selected
    file and an error message never stand together; and the form fields,
    the list, the loading flag and the tab are left alone. *)
Theorem file_choice_replaces_previous (files : list File.t) (st st' : MedicalReports.State) :
  let r := MedicalReports.handleFileSelect files st in
  let r' := MedicalReports.handleFileSelect files st' in
  let cancelled := MedicalReports.handleFileSelect [] st in
  (MedicalReports.selectedFile (state r) = MedicalReports.selectedFile (state r')
   /\ MedicalReports.fileError (state r) = MedicalReports.fileError (state r'))
  /\ state (MedicalReports.handleFileSelect (take 1 files) st) = state r
  /\ (MedicalReports.selectedFile (state cancelled) = None
      /\ MedicalReports.fileError (state cancelled) = "")
  /\ match MedicalReports.selectedFile (state r) with
     | Some _ => MedicalReports.fileError (state r) = ""
     | None => True
     end
  /\ (MedicalReports.reports (state r) = MedicalReports.reports st
      /\ MedicalReports.formData (state r) = MedicalReports.formData st
      /\ MedicalReports.loading (state r) = MedicalReports.loading st
      /\ MedicalReports.activeTab (state r) = MedicalReports.activeTab st).
Proof.
  unfold MedicalReports.handleFileSelect.
  destruct files as [| file others]; simpl.
  - repeat split.
  - rewrite fileExtension_lastSegment.
    destruct (negb (includes _ _)); [repeat split |].
    destruct (_ <? _)%N; repeat split.
Qed.

(** ** AppointmentScheduler: what the list shows *)

Lemma ceilDiv_bounds (a b : Z) :
  (0 < b)%Z ->
  ((AppointmentScheduler.ceilDiv a b - 1) * b < a
   <= AppointmentScheduler.ceilDiv a b * b)%Z.
Proof.
  intros Hb. unfold AppointmentScheduler.ceilDiv.
  pose proof (Z.div_mod (- a) b ltac:(lia)) as Hdiv.
  pose proof (Z.mod_pos_bound (- a) b Hb) as Hmod.
  nia.
Qed.

(** X22.  The number shown before days away is the number of days of 24 hours
    begun between now and the date: the least whole number of days that
    takes from now to the date or beyond, and 0 for a date that has passed.
    An invalid date gives no number. *)
Theorem daysAway_counts_begun_days (parse : option string -> option Z) (now : Z)
    (apt : Item) :
  match parse (field "date" apt), AppointmentScheduler.daysAway parse now apt with
  | Some t, Some n =>
      (0 <= n)%Z
      /\ (t - now <= n * AppointmentScheduler.msPerDay)%Z
      /\ ((n = 0 /\ t <= now) \/ ((n - 1) * AppointmentScheduler.msPerDay < t - now))%Z
  | None, None => True
  | _, _ => False
  end.
Proof.
  unfold AppointmentScheduler.daysAway. destruct (parse (field "date" apt)) as [t |]; [| exact I].
  pose proof (ceilDiv_bounds (t - now) AppointmentScheduler.msPerDay eq_refl) as Hb.
  set (d := AppointmentScheduler.ceilDiv (t - now) AppointmentScheduler.msPerDay) in *.
  change AppointmentScheduler.msPerDay with 86400000%Z in *.
  destruct (Z.max_spec 0 d) as [(Hd & ->) | (Hd & ->)]; lia.
Qed.

Lemma getUpcomingCount_snoc (parse : option string -> option Z) (today : Z)
    (appointments : list Item) (apt : Item) :
  AppointmentScheduler.getUpcomingCount parse today (appointments ++ [apt])
  = AppointmentScheduler.getUpcomingCount parse today appointments
    + match parse (field "date" apt) with
      | Some t => if (today <=? t)%Z then 1 else 0
      | None => 0
      end.
Proof.
  unfold AppointmentScheduler.getUpcomingCount.
  rewrite List.filter_app, length_app. f_equal. simpl.
  destruct (parse (field "date" apt)) as [t |]; [destruct (today <=? t)%Z |]; reflexivity.
Qed.

Lemma getUpcomingCount_le (parse : option string -> option Z) (today : Z)
    (appointments : list Item) :
  AppointmentScheduler.getUpcomingCount parse today appointments <= length appointments.
Proof. apply List.filter_length_le. Qed.

(** X23.  The count on the tab My Appointments after a successful scheduling: the
    count of the list the form was submitted with, plus one if the date of
    the returned appointment is valid and not before today, plus nothing
    otherwise; it never exceeds the number of appointments held. *)
Theorem upcoming_count_after_scheduling (parse : option string -> option Z) (today : Z)
    (appointments : list Item) (env : Env) (data : ApiData.t)
    (cur : AppointmentScheduler.State) :
  ApiData.success data = true ->
  let after :=
    AppointmentScheduler.appointments
      (state (AppointmentScheduler.handleScheduleAppointment_reply appointments env
                (Resolves data) cur)) in
  AppointmentScheduler.getUpcomingCount parse today after
  = AppointmentScheduler.getUpcomingCount parse today appointments
    + match parse (field "date" (ApiData.item data)) with
      | Some t => if (today <=? t)%Z then 1 else 0
      | None => 0
      end
  /\ AppointmentScheduler.getUpcomingCount parse today after <= length after.
Proof.
  intros Hok after. split; [| apply getUpcomingCount_le].
  subst after. run_reply. rewrite Hok. monad. apply getUpcomingCount_snoc.
Qed.

Lemma upcoming_count_after_scheduling_witness :
  AppointmentScheduler.getUpcomingCount sampleParse sampleToday
    (AppointmentScheduler.appointments
       (state (AppointmentScheduler.handleScheduleAppointment_reply
                 [[("id", "3"); ("date", "2024-04-01")]; [("id", "4")]] sampleEnv
                 (Resolves sampleAppointment) AppointmentScheduler.initial)))
  = 1.
Proof.
  destruct (upcoming_count_after_scheduling sampleParse sampleToday
              [[("id", "3"); ("date", "2024-04-01")]; [("id", "4")]] sampleEnv
              sampleAppointment AppointmentScheduler.initial eq_refl) as (H & _).
  exact H.
Defined.

(** ** The forms without a list tab: lifestyle and the AI assistant *)

(** X24.  When a submission of the activity form or of the meal form was sent and
    the reply has a truthy [success], the code run on the reply shows one
    success notification, clears the loading flag, keeps the tab and the
    summary held, and issues exactly one request, the one that reloads the
    summary; the successful reply to that request becomes the summary, any
    other reply leaves the summary as it is. *)
Theorem lifestyle_submission_reloads_summary
    (env : Env) (st : LifestyleLogger.State) (req : Request.t)
    (resume : Env -> FetchResult -> Handler LifestyleLogger.State unit)
    (env' : Env) (data : ApiData.t) (cur : LifestyleLogger.State) :
  In (Fetch req resume) (log (LifestyleLogger.handleSubmitLifestyle env st))
  \/ In (Fetch req resume) (log (LifestyleLogger.handleSubmitMeal env st)) ->
  ApiData.success data = true ->
  let r := resume env' (Resolves data) cur in
  outcome r = Normal tt
  /\ List.filter isCallback (log r)
     = [Fetch (LifestyleLogger.statsRequest env') LifestyleLogger.fetchSummary_reply]
  /\ length (List.filter isToast (log r)) = 1
  /\ LifestyleLogger.loading (state r) = false
  /\ LifestyleLogger.activeTab (state r) = LifestyleLogger.activeTab cur
  /\ LifestyleLogger.summary (state r) = LifestyleLogger.summary cur
  /\ forall env'' result cur',
       LifestyleLogger.summary
         (state (LifestyleLogger.fetchSummary_reply env'' result cur'))
       = match result with
         | Resolves data' =>
             if ApiData.success data' then Some (ApiData.item data')
             else LifestyleLogger.summary cur'
         | Rejects _ => LifestyleLogger.summary cur'
         end.
Proof.
  intros [Hsent | Hsent] Hok; run_in Hsent; split_truthy_in Hsent;
    try (single_effect Hsent; fail);
    single_effect Hsent; injection Hsent as _ <-; run_reply; rewrite Hok; monad;
    repeat split;
    intros env'' [m | data'] cur'; run_reply;
    try destruct (ApiData.success data'); reflexivity.
Qed.

Lemma lifestyle_submission_reloads_summary_witness :
  List.filter isCallback
    (log (LifestyleLogger.handleSubmitMeal_reply sampleEnv (Resolves sampleData) sampleMeal))
  = [Fetch (LifestyleLogger.statsRequest sampleEnv) LifestyleLogger.fetchSummary_reply].
Proof.
  destruct (lifestyle_submission_reloads_summary sampleEnv sampleMeal
              (LifestyleLogger.mealRequest sampleEnv (LifestyleLogger.formData sampleMeal))
              LifestyleLogger.handleSubmitMeal_reply sampleEnv sampleData sampleMeal)
    as (_ & H & _).
  - right. left. reflexivity.
  - reflexivity.
  - exact H.
Defined.

(** X25.  When a question was sent to the AI assistant and the reply has a truthy
    [success], the code run on the reply sets the conversations to those of
    the render that asked, followed by one new entry holding the id and the
    response of the reply, the question exactly as it was typed when asked
    (not trimmed, and not what the input holds by now) and the time of the
    reply; it empties the input, clears the loading flag, shows one success
    notification and issues no request. *)
Theorem answer_is_appended
    (env : Env) (st : AIDoctorAssistant.State) (req : Request.t)
    (resume : Env -> FetchResult -> Handler AIDoctorAssistant.State unit)
    (env' : Env) (data : ApiData.t) (cur : AIDoctorAssistant.State) :
  In (Fetch req resume) (log (AIDoctorAssistant.handleAskQuestion env st)) ->
  ApiData.success data = true ->
  let r := resume env' (Resolves data) cur in
  AIDoctorAssistant.conversations (state r)
  = AIDoctorAssistant.conversations st
    ++ [[("id", ApiData.conversation_id data);
         ("query", AIDoctorAssistant.question st);
         ("response", ApiData.response data);
         ("timestamp", isoTime env')]]
  /\ AIDoctorAssistant.question (state r) = ""
  /\ AIDoctorAssistant.loading (state r) = false
  /\ log r = [ToastSuccess "Response received"]
  /\ Request.body req = JsonBody [("question", JStr (AIDoctorAssistant.question st))].
Proof.
  intros Hsent Hok. run_in Hsent. split_truthy_in Hsent;
    [| single_effect Hsent].
  single_effect Hsent. injection Hsent as <- <-. run_reply. rewrite Hok. monad.
  repeat split.
Qed.

Lemma answer_is_appended_witness :
  (field "query" <$>
     AIDoctorAssistant.conversations
       (state (AIDoctorAssistant.handleAskQuestion_reply
                 (AIDoctorAssistant.conversations sampleQuestion)
                 (AIDoctorAssistant.question sampleQuestion)
                 sampleEnv (Resolves sampleAnswer) AIDoctorAssistant.initial)))
  = [Some "Is rest enough?"; Some " What is a migraine? "].
Proof.
  destruct (answer_is_appended sampleEnv sampleQuestion
              (AIDoctorAssistant.consultRequest sampleEnv
                 (AIDoctorAssistant.question sampleQuestion))
              (AIDoctorAssistant.handleAskQuestion_reply
                 (AIDoctorAssistant.conversations sampleQuestion)
                 (AIDoctorAssistant.question sampleQuestion))
              sampleEnv sampleAnswer AIDoctorAssistant.initial) as (H & _).
  - left. reflexivity.
  - reflexivity.
  - exact (f_equal (fmap (field "query")) H).
Defined.

(** ** MedicalReports: two deletions in flight *)

(** X26.  The reply to a deletion writes the list of the render that started it.
    So when a second deletion is confirmed before the reply to the first
    has come, and both replies have a truthy [success], the report deleted
    first is gone after the first reply and back in the list after the
    second. *)
Theorem second_deletion_restores_first
    (first second : option string) (env : Env) (st : MedicalReports.State)
    (req1 req2 : Request.t)
    (resume1 resume2 : Env -> FetchResult -> Handler MedicalReports.State unit)
    (env1 env2 : Env) (data1 data2 : ApiData.t) (report : Item) :
  let click1 := MedicalReports.handleDeleteReport true first env st in
  let click2 := MedicalReports.handleDeleteReport true second env (state click1) in
  In (Fetch req1 resume1) (log click1) ->
  In (Fetch req2 resume2) (log click2) ->
  ApiData.success data1 = true ->
  ApiData.success data2 = true ->
  In report (MedicalReports.reports st) ->
  field "id" report = first ->
  first <> second ->
  let reply1 := resume1 env1 (Resolves data1) (state click2) in
  let reply2 := resume2 env2 (Resolves data2) (state reply1) in
  ~ In report (MedicalReports.reports (state reply1))
  /\ In report (MedicalReports.reports (state reply2)).
Proof.
  intros click1 click2 Hsent1 Hsent2 Hok1 Hok2 Hin Hid Hne.
  subst click1 click2. run_in Hsent1. run_in Hsent2.
  single_effect Hsent1. single_effect Hsent2.
  injection Hsent1 as _ <-. injection Hsent2 as _ <-.
  run_reply. rewrite Hok1. monad. rewrite Hok2. monad.
  split.
  - intros H. apply filter_In in H as [_ H]. apply differentId_spec in H. congruence.
  - apply filter_In. split; [exact Hin |]. apply differentId_spec. congruence.
Qed.

Lemma second_deletion_restores_first_witness :
  let st := MedicalReports.setReports sampleReports MedicalReports.initial in
  let reply1 :=
    MedicalReports.handleDeleteReport_reply sampleReports (Some "1") sampleEnv
      (Resolves sampleData) st in
  let reply2 :=
    MedicalReports.handleDeleteReport_reply sampleReports (Some "2") sampleEnv
      (Resolves sampleData) (state reply1) in
  ~ In [("id", "1"); ("name", "Blood test")] (MedicalReports.reports (state reply1))
  /\ In [("id", "1"); ("name", "Blood test")] (MedicalReports.reports (state reply2)).
Proof.
  apply (second_deletion_restores_first (Some "1") (Some "2") sampleEnv
           (MedicalReports.setReports sampleReports MedicalReports.initial)
           (MedicalReports.deleteRequest sampleEnv (Some "1"))
           (MedicalReports.deleteRequest sampleEnv (Some "2"))
           (MedicalReports.handleDeleteReport_reply sampleReports (Some "1"))
           (MedicalReports.handleDeleteReport_reply sampleReports (Some "2"))
           sampleEnv sampleEnv sampleData sampleData
           [("id", "1"); ("name", "Blood test")]).
  - left. reflexivity.
  - left. reflexivity.
  - reflexivity.
  - reflexivity.
  - left. reflexivity.
  - reflexivity.
  - discriminate.
Defined.
